(** * Aadhaar data cleaning pipeline (uidai/data_cleaning.py)

    A shallow embedding of the cleaning script: the state-name
    canonicaliser [standardize_state], the row-bounded splitter
    [split_and_save] and the orchestrator [clean_dataset], together with
    the pandas operations they call, modelled on frames of rows.

    Text is ASCII: a Python [str] is a [string] whose characters have
    codes below 128.  Characters with larger codes are carried along
    unchanged (they are neither white space nor cased in this model).
    Numeric columns hold integers; float64 columns (numbers mixed with
    missing values) are not represented. *)

From Stdlib Require Import Ascii.
From stdpp Require Import gmap strings list fin_maps pretty sorting.

Local Open Scope Z_scope.

(** ** Python text primitives *)

Module Py.

(** [str.isspace] on one ASCII character: TAB, LF, VT, FF, CR, the
    four separators FS, GS, RS, US, and the blank. *)
Definition isspace (c : ascii) : bool :=
  let n := N_of_ascii c in
  ((9 <=? n)%N && (n <=? 13)%N) || ((28 <=? n)%N && (n <=? 32)%N).

Definition isupper (c : ascii) : bool :=
  let n := N_of_ascii c in (65 <=? n)%N && (n <=? 90)%N.

Definition islower (c : ascii) : bool :=
  let n := N_of_ascii c in (97 <=? n)%N && (n <=? 122)%N.

Definition isdigit (c : ascii) : bool :=
  let n := N_of_ascii c in (48 <=? n)%N && (n <=? 57)%N.

Definition lower_char (c : ascii) : ascii :=
  if isupper c then ascii_of_N (N_of_ascii c + 32) else c.

Definition upper_char (c : ascii) : ascii :=
  if islower c then ascii_of_N (N_of_ascii c - 32) else c.

Fixpoint smap (f : ascii → ascii) (s : string) : string :=
  match s with
  | EmptyString => EmptyString
  | String c s' => String (f c) (smap f s')
  end.

(** [str.lower] *)
Definition lower : string → string := smap lower_char.

(** [str.lstrip], [str.rstrip] and [str.strip] without argument. *)
Fixpoint lstrip (s : string) : string :=
  match s with
  | EmptyString => EmptyString
  | String c s' => if isspace c then lstrip s' else s
  end.

Fixpoint rstrip (s : string) : string :=
  match s with
  | EmptyString => EmptyString
  | String c s' =>
      match rstrip s' with
      | EmptyString => if isspace c then EmptyString else String c EmptyString
      | r => String c r
      end
  end.

Definition strip (s : string) : string := rstrip (lstrip s).

(** [str.title]: the first cased character after an uncased one is
    upper-cased, every other cased character is lower-cased. *)
Fixpoint title_go (previous_is_cased : bool) (s : string) : string :=
  match s with
  | EmptyString => EmptyString
  | String c s' =>
      if islower c then
        String (if previous_is_cased then c else upper_char c) (title_go true s')
      else if isupper c then
        String (if previous_is_cased then lower_char c else c) (title_go true s')
      else String c (title_go false s')
  end.

Definition title : string → string := title_go false.

(** [len] *)
Definition len (s : string) : Z := Z.of_nat (String.length s).

(** A string made of [n] copies of one character. *)
Fixpoint repeat_char (c : ascii) (n : nat) : string :=
  match n with
  | O => EmptyString
  | S n' => String c (repeat_char c n')
  end.

(** [str.zfill]: pad with zeros on the left up to [width]; a
    leading sign stays in front of the padding. *)
Definition zfill (width : Z) (s : string) : string :=
  let fill := repeat_char "0" (Z.to_nat (width - len s)) in
  match s with
  | String c s' =>
      if bool_decide (c = "+"%char ∨ c = "-"%char)
      then String c (fill +:+ s')
      else fill +:+ s
  | EmptyString => fill
  end.

(** White space only. *)
Fixpoint all_space (s : string) : bool :=
  match s with
  | EmptyString => true
  | String c s' => isspace c && all_space s'
  end.


End Py.


(** ** Cells of a frame *)

(** A cell is missing ([NaN], [None], [NaT]), a text or an integer. *)
Inductive cell : Type :=
  | NA
  | Str (s : string)
  | Int (z : Z).

Global Instance cell_eq_dec : EqDecision cell.
Proof. solve_decision. Defined.

(** [pd.isna] *)
Definition isna (v : cell) : bool :=
  match v with NA => true | _ => false end.

(** [str(v)]; a missing value prints as ["nan"]. *)
Definition str (v : cell) : string :=
  match v with
  | NA => "nan"
  | Str s => s
  | Int z => pretty z
  end.

(** ** State name standardisation *)

Definition STATE_MAPPING_items : list (string * string) :=
  [ ("andaman & nicobar islands", "Andaman and Nicobar Islands");
    ("andaman and nicobar islands", "Andaman and Nicobar Islands");
    ("andhra pradesh", "Andhra Pradesh");
    ("arunachal pradesh", "Arunachal Pradesh");
    ("assam", "Assam");
    ("bihar", "Bihar");
    ("chandigarh", "Chandigarh");
    ("chhattisgarh", "Chhattisgarh");
    ("chhatisgarh", "Chhattisgarh");
    ("dadra & nagar haveli", "Dadra and Nagar Haveli and Daman and Diu");
    ("dadra and nagar haveli", "Dadra and Nagar Haveli and Daman and Diu");
    ("dadra and nagar haveli and daman and diu",
       "Dadra and Nagar Haveli and Daman and Diu");
    ("the dadra and nagar haveli and daman and diu",
       "Dadra and Nagar Haveli and Daman and Diu");
    ("daman & diu", "Dadra and Nagar Haveli and Daman and Diu");
    ("daman and diu", "Dadra and Nagar Haveli and Daman and Diu");
    ("delhi", "Delhi");
    ("goa", "Goa");
    ("gujarat", "Gujarat");
    ("haryana", "Haryana");
    ("himachal pradesh", "Himachal Pradesh");
    ("jammu & kashmir", "Jammu and Kashmir");
    ("jammu and kashmir", "Jammu and Kashmir");
    ("jharkhand", "Jharkhand");
    ("karnataka", "Karnataka");
    ("kerala", "Kerala");
    ("ladakh", "Ladakh");
    ("lakshadweep", "Lakshadweep");
    ("madhya pradesh", "Madhya Pradesh");
    ("maharashtra", "Maharashtra");
    ("manipur", "Manipur");
    ("meghalaya", "Meghalaya");
    ("mizoram", "Mizoram");
    ("nagaland", "Nagaland");
    ("odisha", "Odisha");
    ("orissa", "Odisha");
    ("puducherry", "Puducherry");
    ("pondicherry", "Puducherry");
    ("punjab", "Punjab");
    ("rajasthan", "Rajasthan");
    ("sikkim", "Sikkim");
    ("tamil nadu", "Tamil Nadu");
    ("tamilnadu", "Tamil Nadu");
    ("telangana", "Telangana");
    ("tripura", "Tripura");
    ("uttar pradesh", "Uttar Pradesh");
    ("uttarakhand", "Uttarakhand");
    ("uttaranchal", "Uttarakhand");
    ("west bengal", "West Bengal");
    ("west  bengal", "West Bengal");
    ("west bangal", "West Bengal");
    ("west bengli", "West Bengal");
    ("westbengal", "West Bengal") ].

(** The dictionary literal.  A later item of a dictionary display wins
    over an earlier one with the same key, so the items are inserted
    from the first to the last. *)
Definition STATE_MAPPING : gmap string string :=
  foldl (λ m kv, <[kv.1 := kv.2]> m) ∅ STATE_MAPPING_items.

(** Invalid entries (city names, numbers, etc.) *)
Definition INVALID_STATES : gset string :=
  list_to_set
    [ "100000"; "balanagar"; "nagpur"; "jaipur"; "madanapalle";
      "raja annamalai puram" ].

Definition INVALID : string := "INVALID".

Definition standardize_state (state_value : cell) : string :=
  if isna state_value then INVALID
  else
    let state_lower := Py.lower (Py.strip (str state_value)) in
    if bool_decide (state_lower ∈ INVALID_STATES) then INVALID
    else
      match STATE_MAPPING !! state_lower with
      | Some official => official
      | None => INVALID
      end.

(** ** Frames *)

(** A row maps column labels to cells; a frame is its column labels,
    in order, and its rows, in positional order.  The index is not
    modelled: every frame the script handles is positional
    ([ignore_index=True], [reset_index(drop=True)], [iloc]). *)
Record DataFrame : Type := {
  columns : list string;
  rows : list (gmap string cell)
}.

Definition cell_at (r : gmap string cell) (c : string) : cell :=
  default NA (r !! c).

(** A row laid out on the labels [cols]; labels it lacks are missing. *)
Definition reindex (cols : list string) (r : gmap string cell)
  : gmap string cell :=
  list_to_map ((λ c, (c, cell_at r c)) <$> cols).

(** [len(df)] *)
Definition len (df : DataFrame) : Z := Z.of_nat (length (rows df)).

(** ** Exceptions and written files *)

Inductive exn : Type :=
  | ValueError (msg : string)
  | KeyError (key : string)
  | AttributeError (msg : string)
  | ZeroDivisionError.

Inductive result (A : Type) : Type :=
  | Ok (a : A)
  | Raise (e : exn).
Global Arguments Ok {A} a.
Global Arguments Raise {A} e.

(** One call of [to_csv]. *)
Record written : Type := {
  file : string;
  content : DataFrame
}.

(** The files written so far, oldest first. *)
Definition disk : Type := list written.

(** Computations that may raise and that write files. *)
Definition M (A : Type) : Type := disk → result A * disk.

Global Instance M_ret : MRet M := λ A a d, (Ok a, d).

Global Instance M_bind : MBind M := λ A B k m d,
  match m d with
  | (Ok a, d') => k a d'
  | (Raise e, d') => (Raise e, d')
  end.

Definition lift {A} (r : result A) : M A := λ d, (r, d).

Definition to_csv (df : DataFrame) (path : string) : M unit :=
  λ d, (Ok tt, d ++ [ {| file := path; content := df |} ]).

(** A [for] loop that collects what [append] adds in each round. *)
Fixpoint for_ {A B} (l : list A) (body : A → M B) : M (list B) :=
  match l with
  | [] => mret []
  | x :: l' => y ← body x; ys ← for_ l' body; mret (y :: ys)
  end.

(** ** The pandas operations the script calls *)

Module pd.

(** Labels in the order of their first appearance. *)
Fixpoint unique_go (seen : list string) (l : list string) : list string :=
  match l with
  | [] => []
  | c :: l' =>
      if decide (c ∈ seen) then unique_go seen l'
      else c :: unique_go (c :: seen) l'
  end.

(** [pd.concat(dfs, ignore_index=True)]: the rows of all frames in
    order, on the union of their columns. *)
Definition concat (dfs : list DataFrame) : result DataFrame :=
  match dfs with
  | [] => Raise (ValueError "No objects to concatenate")
  | _ =>
      let cols := unique_go [] (mjoin (columns <$> dfs)) in
      Ok {| columns := cols;
            rows := mjoin ((λ df, reindex cols <$> rows df) <$> dfs) |}
  end.

(** [DataFrame.duplicated()]: for each row, whether an equal row
    stands before it.  Missing values are equal to each other. *)
Fixpoint duplicated_go (seen l : list (gmap string cell)) : list bool :=
  match l with
  | [] => []
  | r :: l' => bool_decide (r ∈ seen) :: duplicated_go (r :: seen) l'
  end.

Definition duplicated (l : list (gmap string cell)) : list bool :=
  duplicated_go [] l.

(** Boolean indexing with the negated mask. *)
Fixpoint drop_marked {A} (l : list A) (mask : list bool) : list A :=
  match l, mask with
  | x :: l', b :: mask' =>
      if b then drop_marked l' mask' else x :: drop_marked l' mask'
  | _, _ => []
  end.

Definition drop_duplicates_rows (l : list (gmap string cell))
  : list (gmap string cell) :=
  drop_marked l (duplicated l).

(** [df.drop_duplicates()] *)
Definition drop_duplicates (df : DataFrame) : DataFrame :=
  {| columns := columns df; rows := drop_duplicates_rows (rows df) |}.

(** [df[c]] *)
Definition getitem (df : DataFrame) (c : string) : result (list cell) :=
  if decide (c ∈ columns df)
  then Ok ((λ r, cell_at r c) <$> rows df)
  else Raise (KeyError c).

(** [df[c] = values]: an existing column is overwritten in place, a
    new one is appended. *)
Definition setitem (df : DataFrame) (c : string) (values : list cell)
  : DataFrame :=
  {| columns := if decide (c ∈ columns df) then columns df
                else columns df ++ [c];
     rows := zip_with (λ r v, <[c := v]> r) (rows df) values |}.

(** [df[cols]] for a list of labels. *)
Definition select (df : DataFrame) (cols : list string) : result DataFrame :=
  match filter (λ c, c ∉ columns df) cols with
  | [] => Ok {| columns := cols; rows := reindex cols <$> rows df |}
  | c :: _ => Raise (KeyError c)
  end.

(** [df.iloc[start:stop]], with Python's slice bounds. *)
Definition slice_index (n i : Z) : Z :=
  if i <? 0 then Z.max 0 (n + i) else Z.min i n.

Definition slice {A} (l : list A) (start stop : Z) : list A :=
  let n := Z.of_nat (length l) in
  let a := slice_index n start in
  let b := slice_index n stop in
  take (Z.to_nat (b - a)) (drop (Z.to_nat a) l).

Definition iloc (df : DataFrame) (start stop : Z) : DataFrame :=
  {| columns := columns df; rows := slice (rows df) start stop |}.

(** The [.str] accessor refuses a column without any text (unless
    the column is empty). *)
Definition is_Str (v : cell) : bool :=
  match v with Str _ => true | _ => false end.

Definition str_accessor (col : list cell) : result (list cell) :=
  match col with
  | [] => Ok col
  | _ => if existsb is_Str col then Ok col
         else Raise (AttributeError
                "Can only use .str accessor with string values!")
  end.

(** A string method maps the texts; other cells become missing. *)
Definition str_map (f : string → string) (v : cell) : cell :=
  match v with Str s => Str (f s) | _ => NA end.

Definition str_strip (col : list cell) : result (list cell) :=
  match str_accessor col with
  | Ok col => Ok (str_map Py.strip <$> col)
  | Raise e => Raise e
  end.

Definition str_title (col : list cell) : result (list cell) :=
  match str_accessor col with
  | Ok col => Ok (str_map Py.title <$> col)
  | Raise e => Raise e
  end.

Definition str_zfill (width : Z) (col : list cell) : result (list cell) :=
  match str_accessor col with
  | Ok col => Ok (str_map (Py.zfill width) <$> col)
  | Raise e => Raise e
  end.

(** [Series.astype(str)] *)
Definition astype_str (col : list cell) : list cell := (Str ∘ str) <$> col.

End pd.

(** ** Dates *)

Module datetime.

(** A calendar day, as a [datetime64[ns]] column holds it at midnight. *)
Record Timestamp : Type := {
  year : Z;
  month : Z;
  day : Z
}.

Definition is_leap (y : Z) : bool :=
  (y mod 4 =? 0) && (negb (y mod 100 =? 0) || (y mod 400 =? 0)).

Definition days_in_month (y m : Z) : Z :=
  if bool_decide (m ∈ [1; 3; 5; 7; 8; 10; 12]) then 31
  else if bool_decide (m ∈ [4; 6; 9; 11]) then 30
  else if m =? 2 then (if is_leap y then 29 else 28)
  else 0.

(** The days a nanosecond timestamp can hold at midnight:
    1677-09-22 to 2262-04-11. *)
Definition in_bounds (y m d : Z) : bool :=
  let n := (y * 100 + m) * 100 + d in
  (16770922 <=? n) && (n <=? 22620411).

Definition digit (c : ascii) : Z := Z.of_N (N_of_ascii c) - 48.

Definition in_range (lo hi c : ascii) : bool :=
  (N_of_ascii lo <=? N_of_ascii c)%N && (N_of_ascii c <=? N_of_ascii hi)%N.

(** The directive [%d]: [3[0-1]|[1-2]\d|0[1-9]|[1-9]| [1-9]]. *)
Definition match_d (s : string) : option Z :=
  match s with
  | String a (String b EmptyString) =>
      if (bool_decide (a = "3"%char) && in_range "0" "1" b)
         || (in_range "1" "2" a && in_range "0" "9" b)
         || (bool_decide (a = "0"%char) && in_range "1" "9" b)
      then Some (10 * digit a + digit b)
      else if bool_decide (a = " "%char) && in_range "1" "9" b
      then Some (digit b)
      else None
  | String a EmptyString =>
      if in_range "1" "9" a then Some (digit a) else None
  | _ => None
  end.

(** The directive [%m]: [1[0-2]|0[1-9]|[1-9]]. *)
Definition match_m (s : string) : option Z :=
  match s with
  | String a (String b EmptyString) =>
      if (bool_decide (a = "1"%char) && in_range "0" "2" b)
         || (bool_decide (a = "0"%char) && in_range "1" "9" b)
      then Some (10 * digit a + digit b)
      else None
  | String a EmptyString =>
      if in_range "1" "9" a then Some (digit a) else None
  | _ => None
  end.

(** The directive [%Y]: [\d\d\d\d]. *)
Definition match_Y (s : string) : option Z :=
  match s with
  | String a (String b (String c (String d EmptyString))) =>
      if in_range "0" "9" a && in_range "0" "9" b
         && in_range "0" "9" c && in_range "0" "9" d
      then Some (((digit a * 10 + digit b) * 10 + digit c) * 10 + digit d)
      else None
  | _ => None
  end.

(** The pieces of a text between the occurrences of [sep]. *)
Fixpoint split (sep : ascii) (s : string) : list string :=
  match s with
  | EmptyString => [EmptyString]
  | String c s' =>
      if bool_decide (c = sep) then EmptyString :: split sep s'
      else match split sep s' with
           | piece :: pieces => String c piece :: pieces
           | [] => [String c EmptyString]
           end
  end.

(** The pieces put together again, with [sep] between them. *)
Fixpoint join (sep : ascii) (pieces : list string) : string :=
  match pieces with
  | [] => EmptyString
  | [piece] => piece
  | piece :: pieces' => piece +:+ String sep (join sep pieces')
  end.

(** Parsing a whole text under the format [%d-%m-%Y].  None of the
    three directives matches a dash, so the text matches exactly when
    it has two dashes and its three pieces match the directives.  The
    day must exist in the calendar and fit a nanosecond timestamp. *)
Definition strptime_dmy (s : string) : option Timestamp :=
  match split "-" s with
  | [sd; sm; sy] =>
      d ← match_d sd; m ← match_m sm; y ← match_Y sy;
      if (d <=? days_in_month y m) && in_bounds y m d
      then Some {| year := y; month := m; day := d |}
      else None
  | _ => None
  end.

(** [pd.to_datetime(v, format='%d-%m-%Y', errors='coerce')] on one
    cell; [None] is [NaT]. *)
Definition to_datetime (v : cell) : option Timestamp :=
  if isna v then None else strptime_dmy (str v).

Definition pad2 (n : Z) : string :=
  if n <? 10 then "0" +:+ pretty n else pretty n.

(** [.dt.strftime('%Y-%m-%d')] on one value; [NaT] becomes [NaN]. *)
Definition strftime_ymd (t : option Timestamp) : cell :=
  match t with
  | Some t => Str (pretty (year t) +:+ "-" +:+ pad2 (month t)
                   +:+ "-" +:+ pad2 (day t))
  | None => NA
  end.

End datetime.

(** ** Sorting *)

(** The order of the values of one sort column: numbers before texts,
    numbers by value, texts by code points, missing values last
    ([na_position='last']). *)
Definition cell_le (a b : cell) : Prop :=
  match a, b with
  | _, NA => True
  | NA, _ => False
  | Str s, Str t => String.le s t
  | Int x, Int y => x ≤ y
  | Int _, Str _ => True
  | Str _, Int _ => False
  end.

Global Instance cell_le_dec : RelDecision cell_le.
Proof. intros [] []; simpl; apply _. Defined.

(** Rows compared on the columns [by_], the first column first. *)
Fixpoint lex_le (by_ : list string) (r1 r2 : gmap string cell) : Prop :=
  match by_ with
  | [] => True
  | c :: by' =>
      cell_le (cell_at r1 c) (cell_at r2 c)
      ∧ (cell_at r1 c = cell_at r2 c → lex_le by' r1 r2)
  end.

Global Instance lex_le_dec by_ : RelDecision (lex_le by_).
Proof. intros r1 r2. induction by_; simpl; apply _. Defined.

(** A row goes in front of the first row that is not below it. *)
Fixpoint insert_row (by_ : list string) (r : gmap string cell)
    (l : list (gmap string cell)) : list (gmap string cell) :=
  match l with
  | [] => [r]
  | r' :: l' =>
      if decide (lex_le by_ r r') then r :: l
      else r' :: insert_row by_ r l'
  end.

(** The stable ascending sort on several columns.  [sort_values] sorts
    the positions with a stable sort on the column codes; a stable sort
    has one possible result ([stable_sort_unique] below), which this
    insertion sort computes. *)
Definition stable_sort (by_ : list string) (l : list (gmap string cell))
  : list (gmap string cell) :=
  foldr (insert_row by_) [] l.

(** [df.sort_values(by=by_, ascending=[True, ...], kind="mergesort")]
    followed by [reset_index(drop=True)]. *)
Definition sort_values (df : DataFrame) (by_ : list string)
  : result DataFrame :=
  match filter (λ c, c ∉ columns df) by_ with
  | [] => Ok {| columns := columns df; rows := stable_sort by_ (rows df) |}
  | c :: _ => Raise (KeyError c)
  end.

(** ** Splitting into files *)

(** Excel's maximum rows per sheet *)
Definition EXCEL_MAX_ROWS : Z := 1048576.

(** One entry of [files_info]; the size in megabytes, a float read
    back from the file system, is left out. *)
Record file_info : Type := {
  fi_file : string;
  fi_rows : Z
}.

(** [f"{output_base}_part{n}.csv"] *)
Definition part_name (output_base : string) (n : Z) : string :=
  output_base +:+ "_part" +:+ pretty n +:+ ".csv".

(** [a // b] and [a % b] *)
Definition floordiv (a b : Z) : result Z :=
  if b =? 0 then Raise ZeroDivisionError else Ok (a `div` b).

Definition pymod (a b : Z) : result Z :=
  if b =? 0 then Raise ZeroDivisionError else Ok (a `mod` b).

Definition split_and_save (df : DataFrame) (output_base : string)
    (max_rows : Z) : M (list file_info) :=
  let total_rows := len df in
  if total_rows <=? max_rows then
    let output_file := part_name output_base 1 in
    _ ← to_csv df output_file;
    mret [ {| fi_file := output_file; fi_rows := total_rows |} ]
  else
    q ← lift (floordiv total_rows max_rows);
    r ← lift (pymod total_rows max_rows);
    let num_parts := q + (if r =? 0 then 0 else 1) in
    for_ (seqZ 0 num_parts) (λ i,
      let start_idx := i * max_rows in
      let end_idx := Z.min ((i + 1) * max_rows) total_rows in
      let part_df := pd.iloc df start_idx end_idx in
      let output_file := part_name output_base (i + 1) in
      _ ← to_csv part_df output_file;
      mret {| fi_file := output_file; fi_rows := len part_df |}).

(** ** The pipeline for one dataset *)

Record stats : Type := {
  dataset : string;
  original_rows : Z;
  duplicates_removed : Z;
  invalid_states : Z;
  final_rows : Z;
  unique_states : Z;
  files_info : list file_info
}.

(** [Series.nunique()] *)
Definition nunique (col : list cell) : Z :=
  Z.of_nat (length (remove_dups (filter (λ v, isna v = false) col))).

Definition sort_cols : list string := ["date"; "state"; "district"].

(** The column assignments of [clean_dataset], one block each.  Each
    reads a column ([KeyError] when the frame lacks it), maps it and
    writes it back. *)

(** Standardize state names *)
Definition standardize_states (df_dedup : DataFrame) : result DataFrame :=
  match pd.getitem df_dedup "state" with
  | Raise e => Raise e
  | Ok state =>
      let df_dedup := pd.setitem df_dedup "state_original" state in
      match pd.getitem df_dedup "state" with
      | Raise e => Raise e
      | Ok state =>
          Ok (pd.setitem df_dedup "state"
                ((Str ∘ standardize_state) <$> state))
      end
  end.

(** Standardize district names (title case, strip whitespace) *)
Definition standardize_districts (df_dedup : DataFrame) : result DataFrame :=
  match pd.getitem df_dedup "district" with
  | Raise e => Raise e
  | Ok district =>
      match pd.str_strip district with
      | Raise e => Raise e
      | Ok district =>
          match pd.str_title district with
          | Raise e => Raise e
          | Ok district => Ok (pd.setitem df_dedup "district" district)
          end
      end
  end.

(** Convert date to standard format (YYYY-MM-DD).  The column holds
    timestamps between its two assignments. *)
Definition convert_dates (df_dedup : DataFrame) : result DataFrame :=
  match pd.getitem df_dedup "date" with
  | Raise e => Raise e
  | Ok date =>
      let date := datetime.to_datetime <$> date in
      Ok (pd.setitem df_dedup "date" (datetime.strftime_ymd <$> date))
  end.

(** Validate pincode (should be 6 digits) *)
Definition validate_pincodes (df_dedup : DataFrame) : result DataFrame :=
  match pd.getitem df_dedup "pincode" with
  | Raise e => Raise e
  | Ok pincode =>
      match pd.str_zfill 6 (pd.astype_str pincode) with
      | Raise e => Raise e
      | Ok pincode => Ok (pd.setitem df_dedup "pincode" pincode)
      end
  end.

(** Reorder columns (state_original at end for reference) *)
Definition reorder_columns (df_dedup : DataFrame) : result DataFrame :=
  let cols :=
    filter (λ c, c ≠ "state_original") (columns df_dedup)
    ++ ["state_original"] in
  pd.select df_dedup cols.

(** An input directory is given by the frames that [read_csv] returns
    for its CSV files, in the order in which [glob] lists them. *)
Definition clean_dataset (input_dir : list DataFrame) (output_base : string)
    (dataset_name : string) : M stats :=
  let dfs := input_dir in
  df ← lift (pd.concat dfs);
  let original_rows := len df in
  (* Remove duplicates *)
  let df_dedup := pd.drop_duplicates df in
  let duplicates_removed := original_rows - len df_dedup in
  df_dedup ← lift (standardize_states df_dedup);
  state ← lift (pd.getitem df_dedup "state");
  let invalid_count :=
    Z.of_nat (length (filter (λ v, v = Str INVALID) state)) in
  df_dedup ← lift (standardize_districts df_dedup);
  df_dedup ← lift (convert_dates df_dedup);
  df_dedup ← lift (validate_pincodes df_dedup);
  (* Date, then State, then District; stable *)
  df_dedup ← lift (sort_values df_dedup sort_cols);
  df_dedup ← lift (reorder_columns df_dedup);
  (* Split and save cleaned data *)
  files_info ← split_and_save df_dedup output_base EXCEL_MAX_ROWS;
  state ← lift (pd.getitem df_dedup "state");
  mret {| dataset := dataset_name;
          original_rows := original_rows;
          duplicates_removed := duplicates_removed;
          invalid_states := invalid_count;
          final_rows := len df_dedup;
          unique_states := nunique state;
          files_info := files_info |}.

(** Running a computation on a disk. *)
Definition run {A} (m : M A) (d : disk) : result A * disk := m d.
Global Arguments run : simpl never.

(** What each of the four column blocks does to one row, and all
    four in the order of the script. *)
Definition state_row (r : gmap string cell) : gmap string cell :=
  let r := <["state_original" := cell_at r "state"]> r in
  <["state" := Str (standardize_state (cell_at r "state"))]> r.

Definition district_row (r : gmap string cell) : gmap string cell :=
  <["district" :=
     pd.str_map Py.title (pd.str_map Py.strip (cell_at r "district"))]> r.

Definition date_row (r : gmap string cell) : gmap string cell :=
  <["date" :=
     datetime.strftime_ymd (datetime.to_datetime (cell_at r "date"))]> r.

Definition pincode_row (r : gmap string cell) : gmap string cell :=
  <["pincode" := Str (Py.zfill 6 (str (cell_at r "pincode")))]> r.

Definition clean_row (r : gmap string cell) : gmap string cell :=
  pincode_row (date_row (district_row (state_row r))).

(** The rows a sort must keep in their order: those with the key of [r0]. *)
Definition sort_key (by_ : list string) (r : gmap string cell) : list cell :=
  cell_at r <$> by_.

Definition same_key (by_ : list string) (r0 r : gmap string cell) : Prop :=
  sort_key by_ r = sort_key by_ r0.

Global Instance same_key_dec by_ r0 r : Decision (same_key by_ r0 r).
Proof. unfold same_key. apply _. Defined.

(** All rows written to a disk, file after file. *)
Definition rows_on (d : disk) : list (gmap string cell) :=
  mjoin ((rows ∘ content) <$> d).

(** The number of parts the loop makes. *)
Definition num_parts (total_rows max_rows : Z) : Z :=
  total_rows `div` max_rows
  + (if total_rows `mod` max_rows =? 0 then 0 else 1).

(** The [i]-th block of [max_rows] rows of a frame (the last block
    may be shorter). *)
Definition chunk (df : DataFrame) (max_rows i : Z) : DataFrame :=
  {| columns := columns df;
     rows := take (Z.to_nat max_rows) (drop (Z.to_nat (i * max_rows)) (rows df)) |}.

(** What [split_and_save] writes and returns when it makes [k] parts. *)
Definition parts_written (df : DataFrame) (output_base : string)
    (max_rows k : Z) : list written :=
  (λ i, {| file := part_name output_base (i + 1);
           content := chunk df max_rows i |}) <$> seqZ 0 k.

Definition parts_info (df : DataFrame) (output_base : string)
    (max_rows k : Z) : list file_info :=
  (λ i, {| fi_file := part_name output_base (i + 1);
           fi_rows := len (chunk df max_rows i) |}) <$> seqZ 0 k.

(** ** The callers: the summary, the loop of [main], the loaders *)

(** [sum(fi['rows'] for fi in stats['files_info'])] in
    [generate_split_summary]. *)
Definition total_rows_of (infos : list file_info) : Z :=
  foldl (λ acc fi, acc + fi_rows fi) 0 infos.

(** [os.path.join(a, b)] on POSIX paths. *)
Fixpoint ends_with (c : ascii) (s : string) : bool :=
  match s with
  | EmptyString => false
  | String c' EmptyString => bool_decide (c' = c)
  | String _ s' => ends_with c s'
  end.

Definition path_join (a b : string) : string :=
  match b with
  | String "/" _ => b
  | _ => if bool_decide (a = EmptyString) || ends_with "/" a then a +:+ b
         else a +:+ "/" +:+ b
  end.

(** One entry of the list [datasets] of [main]. *)
Record dataset_spec : Type := {
  ds_input_dir : list DataFrame;
  ds_output_base : string;
  ds_name : string
}.

(** The list [datasets] of [main]: the three input directories (given
    by their frames) and the output bases under [output_dir]. *)
Definition main_datasets (output_dir : string)
    (biometric demographic enrolment : list DataFrame) : list dataset_spec :=
  [ {| ds_input_dir := biometric;
       ds_output_base := path_join output_dir "biometric_cleaned";
       ds_name := "BIOMETRIC" |};
    {| ds_input_dir := demographic;
       ds_output_base := path_join output_dir "demographic_cleaned";
       ds_name := "DEMOGRAPHIC" |};
    {| ds_input_dir := enrolment;
       ds_output_base := path_join output_dir "enrolment_cleaned";
       ds_name := "ENROLMENT" |} ].

(** The loop of [main] over its datasets ("Process each dataset").
    The two text reports that [main] writes after the loop are not
    part of this disk, which holds the CSV files. *)
Definition process_datasets (datasets : list dataset_spec) : M (list stats) :=
  for_ datasets (λ ds,
    clean_dataset (ds_input_dir ds) (ds_output_base ds) (ds_name ds)).

(** [sorted(glob.glob(pattern))] followed by the test [if not files]
    of [load_split_csv] (uni.py), which raises [FileNotFoundError],
    and of [load_dataset] (indiafinal.py, borderenroll2.py), which
    returns [None].  [globbed] are the names that [glob] returns;
    [None] stands for either outcome of an empty list. *)
Definition sorted_files (globbed : list string) : option (list string) :=
  match merge_sort String.le globbed with
  | [] => None
  | files => Some files
  end.

(** The rows with a given state, counted as
    [(df_dedup['state'] == 'INVALID').sum()] does. *)
Definition count_state (name : string) (l : list (gmap string cell)) : Z :=
  Z.of_nat (length (filter (λ r, cell_at r "state" = Str name) l)).


(** ** The earlier version of the script *)

(** [clean_dataset] of hackathon2/data_cleaning.py: the same blocks
    (and the same [standardize_state] and tables), no sort, and one
    file [output_file] for the whole frame. *)
Module hackathon2.

Record stats : Type := {
  dataset : string;
  original_rows : Z;
  duplicates_removed : Z;
  invalid_states : Z;
  final_rows : Z;
  unique_states : Z
}.

Definition clean_dataset (input_dir : list DataFrame) (output_file : string)
    (dataset_name : string) : M stats :=
  let dfs := input_dir in
  df ← lift (pd.concat dfs);
  let original_rows := len df in
  (* Remove duplicates *)
  let df_dedup := pd.drop_duplicates df in
  let duplicates_removed := original_rows - len df_dedup in
  df_dedup ← lift (standardize_states df_dedup);
  state ← lift (pd.getitem df_dedup "state");
  let invalid_count :=
    Z.of_nat (length (filter (λ v, v = Str INVALID) state)) in
  df_dedup ← lift (standardize_districts df_dedup);
  df_dedup ← lift (convert_dates df_dedup);
  df_dedup ← lift (validate_pincodes df_dedup);
  df_dedup ← lift (reorder_columns df_dedup);
  (* Save cleaned data *)
  _ ← to_csv df_dedup output_file;
  state ← lift (pd.getitem df_dedup "state");
  mret {| dataset := dataset_name;
          original_rows := original_rows;
          duplicates_removed := duplicates_removed;
          invalid_states := invalid_count;
          final_rows := len df_dedup;
          unique_states := nunique state |}.

End hackathon2.

(** ** Sample data *)

Definition bio_columns : list string :=
  ["date"; "state"; "district"; "pincode"; "bio_age_5_17"; "bio_age_17_"].

Definition bio_row (date state district : string) (pincode a b : Z)
  : gmap string cell :=
  list_to_map
    [ ("date", Str date); ("state", Str state); ("district", Str district);
      ("pincode", Int pincode); ("bio_age_5_17", Int a);
      ("bio_age_17_", Int b) ].

(** Three rows, two identical and one distinct, all with the state
    written with a double space. *)
Definition three_rows : DataFrame :=
  {| columns := bio_columns;
     rows := [ bio_row "02-03-2025" "West  Bengal" "kolkata" 700001 7 12;
               bio_row "02-03-2025" "West  Bengal" "kolkata" 700001 7 12;
               bio_row "01-03-2025" "West  Bengal" "howrah" 711101 3 4 ] |}.

(** Two rows that differ only in the spelling of the state. *)
Definition two_spellings : DataFrame :=
  {| columns := bio_columns;
     rows := [ bio_row "02-03-2025" "West Bengal" "kolkata" 700001 7 12;
               bio_row "02-03-2025" "WEST BENGAL" "kolkata" 700001 7 12 ] |}.

(** Four rows, two of them with a date that does not parse. *)
Definition mixed_dates : DataFrame :=
  {| columns := bio_columns;
     rows := [ bio_row "2025-03-02" "Goa" "north goa" 403001 1 2;
               bio_row "02-03-2025" "Goa" "north goa" 403001 1 2;
               bio_row "31-02-2025" "Assam" "kamrup" 781001 5 6;
               bio_row "01-03-2025" "Kerala" "idukki" 685501 3 4 ] |}.

(** * Properties *)

(** ** Text *)

Section text.

Lemma append_nil_l (s : string) : "" +:+ s = s.
Proof. reflexivity. Qed.

Lemma append_cons (c : ascii) (s t : string) :
  String c s +:+ t = String c (s +:+ t).
Proof. reflexivity. Qed.


Lemma length_append (s t : string) :
  String.length (s +:+ t) = (String.length s + String.length t)%nat.
Proof. induction s as [|c s IH]; [done|]. rewrite ?append_cons. simpl. lia. Qed.


Lemma isspace_lower_char (c : ascii) :
  Py.isspace (Py.lower_char c) = Py.isspace c.
Proof. by destruct c as [[] [] [] [] [] [] [] []]. Qed.

Lemma lower_append (s t : string) :
  Py.lower (s +:+ t) = Py.lower s +:+ Py.lower t.
Proof.
  induction s as [|c s IH]; [done|].
  rewrite ?append_cons. unfold Py.lower in *. simpl.
  by rewrite IH, ?append_cons.
Qed.

Lemma all_space_lower (s : string) :
  Py.all_space (Py.lower s) = Py.all_space s.
Proof.
  induction s as [|c s IH]; [done|].
  unfold Py.lower in *. simpl. by rewrite isspace_lower_char, IH.
Qed.










End text.

(** ** The state canonicaliser *)

Section canonicaliser.

Lemma foldl_insert_lookup (items : list (string * string))
    (m : gmap string string) (k v : string) :
  foldl (λ m kv, <[kv.1 := kv.2]> m) m items !! k = Some v →
  m !! k = Some v ∨ (k, v) ∈ items.
Proof.
  revert m. induction items as [|[k' v'] items IH]; intros m; simpl; [auto|].
  intros [H|H]%IH; [|right; by apply list_elem_of_further].
  destruct (decide (k' = k)) as [->|Hne].
  - rewrite lookup_insert_eq in H. injection H as ->. right. by left.
  - rewrite lookup_insert_ne in H by done. by left.
Qed.

Lemma STATE_MAPPING_lookup (k v : string) :
  STATE_MAPPING !! k = Some v → (k, v) ∈ STATE_MAPPING_items.
Proof.
  intros [H|H]%foldl_insert_lookup; [|done]. by rewrite lookup_empty in H.
Qed.






End canonicaliser.

Global Opaque STATE_MAPPING INVALID_STATES.

(** ** Column assignments *)

Section frames.

Lemma getitem_Ok (df : DataFrame) (c : string) (col : list cell) :
  pd.getitem df c = Ok col →
  c ∈ columns df ∧ col = (λ r, cell_at r c) <$> rows df.
Proof.
  unfold pd.getitem. destruct (decide (c ∈ columns df)); [|discriminate].
  intros [= <-]. split; [assumption|reflexivity].
Qed.

Lemma getitem_elem (df : DataFrame) (c : string) :
  c ∈ columns df → pd.getitem df c = Ok ((λ r, cell_at r c) <$> rows df).
Proof. intros H. unfold pd.getitem. by rewrite (decide_True _ _ H). Qed.

(** Writing back a column computed row by row is a map over the rows. *)
Lemma rows_setitem_fmap (df : DataFrame) (c : string)
    (f : gmap string cell → cell) :
  rows (pd.setitem df c (f <$> rows df)) = (λ r, <[c := f r]> r) <$> rows df.
Proof.
  unfold pd.setitem. cbn [rows].
  rewrite zip_with_fmap_r. apply zip_with_diag.
Qed.

Lemma columns_setitem (df : DataFrame) (c : string) (values : list cell) :
  columns (pd.setitem df c values)
  = if decide (c ∈ columns df) then columns df else columns df ++ [c].
Proof. reflexivity. Qed.

Lemma columns_setitem_elem (df : DataFrame) (c : string)
    (values : list cell) :
  c ∈ columns df → columns (pd.setitem df c values) = columns df.
Proof. intros H. rewrite columns_setitem. by rewrite (decide_True _ _ H). Qed.

Lemma elem_columns_setitem (df : DataFrame) (c c' : string)
    (values : list cell) :
  c' ∈ columns (pd.setitem df c values) ↔ c' ∈ columns df ∨ c' = c.
Proof.
  rewrite columns_setitem. destruct (decide (c ∈ columns df)).
  - split; [by left|]. intros [?| ->]; assumption.
  - rewrite elem_of_app, list_elem_of_singleton. reflexivity.
Qed.

Lemma cell_at_insert (r : gmap string cell) (c : string) (v : cell) :
  cell_at (<[c := v]> r) c = v.
Proof. unfold cell_at. by rewrite lookup_insert_eq. Qed.

Lemma cell_at_insert_ne (r : gmap string cell) (c c' : string) (v : cell) :
  c ≠ c' → cell_at (<[c := v]> r) c' = cell_at r c'.
Proof. intros H. unfold cell_at. by rewrite lookup_insert_ne. Qed.

Lemma str_accessor_astype (col : list cell) :
  pd.str_accessor (pd.astype_str col) = Ok (pd.astype_str col).
Proof. by destruct col. Qed.

(** The pincode block never raises once the column exists. *)
Lemma str_zfill_astype (width : Z) (col : list cell) :
  pd.str_zfill width (pd.astype_str col)
  = Ok ((λ v, Str (Py.zfill width (str v))) <$> col).
Proof.
  unfold pd.str_zfill. rewrite str_accessor_astype.
  unfold pd.astype_str. by rewrite <- list_fmap_compose.
Qed.

Lemma validate_pincodes_Ok (df df' : DataFrame) :
  validate_pincodes df = Ok df' →
  "pincode" ∈ columns df ∧ columns df' = columns df
  ∧ rows df'
    = (λ r, <["pincode" := Str (Py.zfill 6 (str (cell_at r "pincode")))]> r)
      <$> rows df.
Proof.
  unfold validate_pincodes.
  destruct (pd.getitem df "pincode") as [col|] eqn:Hcol; [|discriminate].
  apply getitem_Ok in Hcol as [Hin ->].
  rewrite str_zfill_astype, <- list_fmap_compose. intros [= <-].
  split_and!; [assumption|by apply columns_setitem_elem|].
  apply rows_setitem_fmap.
Qed.

End frames.

(** ** Pincodes *)

Section pincodes.






End pincodes.

(** ** The splitter *)

Section splitter.

Lemma run_bind {A B} (m : M A) (k : A → M B) (d : disk) :
  run (m ≫= k) d
  = match run m d with
    | (Ok a, d') => run (k a) d'
    | (Raise e, d') => (Raise e, d')
    end.
Proof. reflexivity. Qed.

Lemma run_ret {A} (a : A) (d : disk) : run (mret a) d = (Ok a, d).
Proof. reflexivity. Qed.

Lemma run_lift {A} (r : result A) (d : disk) : run (lift r) d = (r, d).
Proof. reflexivity. Qed.

Lemma run_to_csv (df : DataFrame) (path : string) (d : disk) :
  run (to_csv df path) d
  = (Ok tt, d ++ [ {| file := path; content := df |} ]).
Proof. reflexivity. Qed.

Lemma run_for_cons {A B} (x : A) (l : list A) (body : A → M B) (d : disk) :
  run (for_ (x :: l) body) d
  = run (body x ≫= λ y, for_ l body ≫= λ ys, mret (y :: ys)) d.
Proof. reflexivity. Qed.

Lemma run_for_to_csv {A} (l : list A) (f : A → DataFrame) (g : A → string)
    (h : A → file_info) (d : disk) :
  run (for_ l (λ i, _ ← to_csv (f i) (g i); mret (h i))) d
  = (Ok (h <$> l), d ++ ((λ i, {| file := g i; content := f i |}) <$> l)).
Proof.
  revert d. induction l as [|x l IH]; intros d.
  - rewrite app_nil_r. reflexivity.
  - rewrite run_for_cons, !run_bind, run_to_csv, run_ret, run_bind, IH.
    rewrite run_ret, <- app_assoc. reflexivity.
Qed.

(** A slice that starts at a multiple of the block size is a block. *)
Lemma slice_chunk {A} (l : list A) (m i : Z) :
  0 < m → 0 ≤ i →
  pd.slice l (i * m) (Z.min ((i + 1) * m) (Z.of_nat (length l)))
  = take (Z.to_nat m) (drop (Z.to_nat (i * m)) l).
Proof.
  intros Hm Hi. unfold pd.slice, pd.slice_index.
  assert (0 ≤ i * m) as Him by nia.
  assert ((i + 1) * m = i * m + m) as -> by lia.
  set (n := Z.of_nat (length l)). set (a := i * m) in *.
  rewrite (proj2 (Z.ltb_ge a 0)) by lia.
  rewrite (proj2 (Z.ltb_ge (Z.min (a + m) n) 0)) by lia.
  destruct (decide (n ≤ a)) as [Hge|Hlt].
  - rewrite !(drop_ge l) by lia. by rewrite !take_nil.
  - replace (a `min` n) with a by lia.
    assert (length (drop (Z.to_nat a) l) = Z.to_nat (n - a)) as Hl'
      by (rewrite length_drop; lia).
    destruct (decide (a + m ≤ n)).
    + f_equal. lia.
    + rewrite !take_ge by lia. reflexivity.
Qed.

Lemma iloc_chunk (df : DataFrame) (m i : Z) :
  0 < m → 0 ≤ i →
  pd.iloc df (i * m) (Z.min ((i + 1) * m) (len df)) = chunk df m i.
Proof.
  intros. unfold pd.iloc, chunk, len. f_equal. by apply slice_chunk.
Qed.

(** The first [k] blocks make up the first [k * m] rows. *)
Lemma join_chunks {A} (l : list A) (m : Z) (k : nat) :
  0 < m →
  mjoin ((λ i, take (Z.to_nat m) (drop (Z.to_nat (i * m)) l))
           <$> seqZ 0 (Z.of_nat k))
  = take (k * Z.to_nat m) l.
Proof.
  intros Hm. induction k as [|k IH].
  - by rewrite seqZ_nil.
  - rewrite seqZ_S, fmap_app, join_app, IH. simpl.
    rewrite app_nil_r.
    replace (Z.to_nat ((0 + Z.of_nat k) * m)) with (k * Z.to_nat m)%nat
      by nia.
    rewrite take_take_drop. f_equal. lia.
Qed.

Lemma chunk_whole (df : DataFrame) (m : Z) :
  len df ≤ m → chunk df m 0 = df.
Proof.
  intros H. destruct df as [cols rs]. unfold chunk, len in *. simpl in *.
  f_equal. rewrite drop_0. apply take_ge. lia.
Qed.

Lemma lookup_chunk (df : DataFrame) (m i : Z) (j : nat) :
  0 ≤ i → Z.of_nat j < m →
  rows (chunk df m i) !! j = rows df !! (Z.to_nat (i * m) + j)%nat.
Proof.
  intros Hi Hj. unfold chunk. simpl.
  rewrite lookup_take_lt by lia. apply lookup_drop.
Qed.

Lemma len_chunk (df : DataFrame) (m i : Z) :
  0 < m → 0 ≤ i →
  len (chunk df m i) = Z.max 0 (Z.min m (len df - i * m)).
Proof.
  intros Hm Hi. unfold len, chunk. simpl.
  rewrite length_take, length_drop. nia.
Qed.

Lemma num_parts_ceil (n m : Z) :
  0 < m → 0 < n →
  (num_parts n m - 1) * m < n ≤ num_parts n m * m.
Proof.
  intros Hm Hn. unfold num_parts.
  pose proof (Z.div_mod n m ltac:(lia)) as Hdm.
  pose proof (Z.mod_pos_bound n m Hm) as Hr.
  destruct (Z.eqb_spec (n `mod` m) 0) as [H0|H0]; nia.
Qed.

(** What a call of [split_and_save] does, for a positive bound. *)
Lemma split_and_save_run (df : DataFrame) (output_base : string)
    (max_rows : Z) (d : disk) :
  1 ≤ max_rows →
  let k := if decide (len df ≤ max_rows) then 1
           else num_parts (len df) max_rows in
  run (split_and_save df output_base max_rows) d
  = (Ok (parts_info df output_base max_rows k),
     d ++ parts_written df output_base max_rows k).
Proof.
  intros Hm k. unfold split_and_save, parts_info, parts_written.
  cbv zeta. subst k. destruct (decide (len df ≤ max_rows)) as [Hle|Hgt].
  - rewrite (proj2 (Z.leb_le _ _) Hle).
    rewrite (seqZ_cons 0 1), seqZ_nil by lia.
    rewrite run_bind, run_to_csv, run_ret. cbn [fmap list_fmap].
    rewrite (chunk_whole df max_rows Hle). reflexivity.
  - rewrite (proj2 (Z.leb_gt _ _)) by lia.
    unfold floordiv, pymod.
    rewrite (proj2 (Z.eqb_neq max_rows 0)) by lia.
    rewrite run_bind, run_lift. cbv beta iota.
    rewrite run_bind, run_lift. cbv beta iota.
    rewrite (run_for_to_csv _
      (λ i, pd.iloc df (i * max_rows) (Z.min ((i + 1) * max_rows) (len df)))
      (λ i, part_name output_base (i + 1))
      (λ i, {| fi_file := part_name output_base (i + 1);
               fi_rows := len (pd.iloc df (i * max_rows)
                              (Z.min ((i + 1) * max_rows) (len df))) |})).
    fold (num_parts (len df) max_rows).
    f_equal; [f_equal|f_equal]; apply list_fmap_ext; intros j i Hi;
      apply lookup_seqZ in Hi as [-> Hi];
      by rewrite iloc_chunk by lia.
Qed.

Lemma parts_count (df : DataFrame) (max_rows : Z) :
  1 ≤ max_rows →
  let k := if decide (len df ≤ max_rows) then 1
           else num_parts (len df) max_rows in
  1 ≤ k ∧ len df ≤ k * max_rows ∧ (0 < len df → (k - 1) * max_rows < len df).
Proof.
  intros Hm k. subst k. destruct (decide (len df ≤ max_rows)) as [Hle|Hgt].
  - lia.
  - pose proof (num_parts_ceil (len df) max_rows ltac:(lia) ltac:(lia)).
    nia.
Qed.

Lemma rows_on_parts_written (df : DataFrame) (output_base : string)
    (max_rows k : Z) :
  0 < max_rows → 0 ≤ k → len df ≤ k * max_rows →
  rows_on (parts_written df output_base max_rows k) = rows df.
Proof.
  intros Hm Hk Hlen. unfold rows_on, parts_written.
  rewrite <- list_fmap_compose.
  replace k with (Z.of_nat (Z.to_nat k)) by lia.
  trans (take (Z.to_nat k * Z.to_nat max_rows)%nat (rows df)).
  - rewrite <- (join_chunks (rows df) max_rows (Z.to_nat k) Hm). reflexivity.
  - apply take_ge. unfold len in Hlen. nia.
Qed.

(** C2: for every frame and every positive bound, [split_and_save]
    succeeds and adds to the disk the files part1, part2, ... in this
    order; each has the columns of the frame, and their rows put one
    after the other in the order of the part numbers are the rows of
    the frame: none lost, none twice, none moved. *)
Theorem split_and_save_roundtrip (df : DataFrame) (output_base : string)
    (max_rows : Z) (d : disk) :
  1 ≤ max_rows →
  ∃ infos parts,
    run (split_and_save df output_base max_rows) d = (Ok infos, d ++ parts)
    ∧ rows_on parts = rows df
    ∧ Forall (λ w, columns (content w) = columns df) parts
    ∧ file <$> parts
      = part_name output_base <$> seqZ 1 (Z.of_nat (length parts))
    ∧ fi_file <$> infos = file <$> parts.
Proof.
  intros Hm.
  pose proof (split_and_save_run df output_base max_rows d Hm) as Hrun.
  pose proof (parts_count df max_rows Hm) as (Hk1 & Hk2 & _).
  cbv zeta in Hrun, Hk1, Hk2.
  set (k := if decide (len df ≤ max_rows) then 1
            else num_parts (len df) max_rows) in *.
  eexists _, _. split; [exact Hrun|]. split_and!.
  - apply rows_on_parts_written; lia.
  - unfold parts_written. apply Forall_fmap, Forall_forall.
    intros i _. reflexivity.
  - unfold parts_written. rewrite length_fmap, length_seqZ, Z2Nat.id by lia.
    change (seqZ 1 k) with (seqZ (1 + 0) k).
    rewrite <- (fmap_add_seqZ 1 0 k), <- !list_fmap_compose.
    apply list_fmap_ext. intros j i _. simpl. f_equal. lia.
  - unfold parts_info, parts_written. rewrite <- !list_fmap_compose.
    reflexivity.
Qed.

Lemma split_and_save_roundtrip_witness :
  1 ≤ 2
  ∧ ∃ infos parts,
      run (split_and_save three_rows "out/bio" 2) [] = (Ok infos, [] ++ parts)
      ∧ rows_on parts = rows three_rows
      ∧ Forall (λ w, columns (content w) = columns three_rows) parts
      ∧ file <$> parts
        = part_name "out/bio" <$> seqZ 1 (Z.of_nat (length parts))
      ∧ fi_file <$> infos = file <$> parts.
Proof.
  split; [lia|]. apply (split_and_save_roundtrip three_rows "out/bio" 2 []).
  lia.
Defined.

(** C3: for every frame and every bound of at least 1,
    [split_and_save] writes [k] parts, numbered from 1, where part
    [i + 1] is the [i]-th block of [max_rows] rows: its row [j] is row
    [i * max_rows + j] of the frame.  [k] is 1 when the frame has at
    most [max_rows] rows; for a frame with rows, [k] is the ceiling of
    the quotient, [(k - 1) * max_rows < len df ≤ k * max_rows].  Every
    part but the last has exactly [max_rows] rows and the last has
    between 1 and [max_rows].  A frame of exactly [max_rows] rows
    gives one part; one of [max_rows + 1] rows gives two, of
    [max_rows] rows and of 1 row. *)
Theorem split_and_save_shards (df : DataFrame) (output_base : string)
    (max_rows : Z) (d : disk) :
  1 ≤ max_rows →
  ∃ k : Z,
    run (split_and_save df output_base max_rows) d
    = (Ok (parts_info df output_base max_rows k),
       d ++ parts_written df output_base max_rows k)
    ∧ Z.of_nat (length (parts_written df output_base max_rows k)) = k
    ∧ (len df ≤ max_rows → k = 1)
    ∧ (0 < len df → (k - 1) * max_rows < len df ≤ k * max_rows)
    ∧ (0 < len df → k = (len df + max_rows - 1) `div` max_rows)
    ∧ (∀ i (j : nat), 0 ≤ i → Z.of_nat j < max_rows →
         rows (chunk df max_rows i) !! j
         = rows df !! (Z.to_nat (i * max_rows) + j)%nat)
    ∧ (∀ i, 0 ≤ i < k → len (chunk df max_rows i) ≤ max_rows)
    ∧ (∀ i, 0 ≤ i < k - 1 → len (chunk df max_rows i) = max_rows)
    ∧ (0 < len df → 1 ≤ len (chunk df max_rows (k - 1)))
    ∧ (len df = max_rows → k = 1)
    ∧ (len df = max_rows + 1 →
         k = 2 ∧ len (chunk df max_rows 0) = max_rows
         ∧ len (chunk df max_rows 1) = 1).
Proof.
  intros Hm.
  pose proof (split_and_save_run df output_base max_rows d Hm) as Hrun.
  pose proof (parts_count df max_rows Hm) as (Hk1 & Hk2 & Hk3).
  cbv zeta in Hrun, Hk1, Hk2, Hk3.
  assert (len df ≤ max_rows →
          (if decide (len df ≤ max_rows) then 1
           else num_parts (len df) max_rows) = 1) as Hsmall
    by (intros; by rewrite decide_True).
  set (k := if decide (len df ≤ max_rows) then 1
            else num_parts (len df) max_rows) in *.
  assert (∀ i, 0 ≤ i →
            len (chunk df max_rows i)
            = Z.max 0 (Z.min max_rows (len df - i * max_rows))) as Hlen
    by (intros; apply len_chunk; lia).
  exists k. split; [exact Hrun|]. split_and!.
  - unfold parts_written. rewrite length_fmap, length_seqZ. lia.
  - exact Hsmall.
  - intros Hpos. split; [by apply Hk3|exact Hk2].
  - intros Hpos. specialize (Hk3 Hpos).
    apply (Z.div_unique_pos _ _ _ (len df - (k - 1) * max_rows - 1)); lia.
  - intros i j Hi Hj. by apply lookup_chunk.
  - intros i Hi. rewrite Hlen by lia. lia.
  - intros i Hi. rewrite Hlen by lia. nia.
  - intros Hpos. specialize (Hk3 Hpos). rewrite Hlen by lia. nia.
  - intros Heq. apply Hsmall. lia.
  - intros Heq. assert (0 < len df) as Hpos by lia. specialize (Hk3 Hpos).
    assert (k = 2) as Hk by nia.
    rewrite !Hlen by lia. split_and!; [exact Hk|lia|lia].
Qed.

Lemma split_and_save_shards_witness :
  1 ≤ 2
  ∧ ∃ k : Z,
      run (split_and_save three_rows "out/bio" 2) []
      = (Ok (parts_info three_rows "out/bio" 2 k),
         [] ++ parts_written three_rows "out/bio" 2 k)
      ∧ k = 2
      ∧ len (chunk three_rows 2 0) = 2
      ∧ len (chunk three_rows 2 1) = 1.
Proof.
  split; [lia|].
  destruct (split_and_save_shards three_rows "out/bio" 2 [] ltac:(lia))
    as (k & Hrun & _ & _ & _ & _ & _ & _ & _ & _ & _ & Hlast).
  exists k. split; [exact Hrun|]. apply Hlast. reflexivity.
Defined.

End splitter.

(** ** Duplicates *)

Section duplicates.

Implicit Types (l seen : list (gmap string cell)) (x : gmap string cell).

Local Abbreviation dd seen l := (pd.drop_marked l (pd.duplicated_go seen l)).

Lemma dd_cons seen x l :
  dd seen (x :: l)
  = if decide (x ∈ seen) then dd (x :: seen) l else x :: dd (x :: seen) l.
Proof. simpl. by case_bool_decide; case_decide. Qed.






Lemma sublist_dd seen l : sublist (dd seen l) l.
Proof.
  revert seen. induction l as [|y l IH]; intros seen; [constructor|].
  rewrite dd_cons. destruct (decide (y ∈ seen)).
  - by apply sublist_cons.
  - by apply sublist_skip.
Qed.


Lemma length_drop_duplicates_rows l :
  (length (pd.drop_duplicates_rows l) ≤ length l)%nat.
Proof. apply sublist_length, sublist_dd. Qed.

End duplicates.

(** ** Sorting *)

Section sorting.

Implicit Types (r : gmap string cell) (l : list (gmap string cell)).

Global Instance cell_le_refl : Reflexive cell_le.
Proof. intros [|s|z]; simpl; done. Qed.

Global Instance cell_le_trans : Transitive cell_le.
Proof.
  intros [|s1|z1] [|s2|z2] [|s3|z3]; simpl; try done.
  - apply (transitivity (R:=String.le)).
  - lia.
Qed.

Global Instance cell_le_antisym : AntiSymm (=) cell_le.
Proof.
  intros [|s1|z1] [|s2|z2]; simpl; try done.
  - intros H1 H2. f_equal. by apply (anti_symm String.le).
  - intros H1 H2. f_equal. lia.
Qed.

Global Instance cell_le_total : Total cell_le.
Proof.
  intros [|s1|z1] [|s2|z2]; simpl; try tauto.
  - apply String.le_total.
  - lia.
Qed.

(** Code-point order on texts, character by character. *)
Lemma string_le_lex :
  (∀ t, String.le "" t)
  ∧ (∀ a s, ¬ String.le (String a s) "")
  ∧ (∀ a b s t,
       String.le (String a s) (String b t)
       ↔ (N_of_ascii a < N_of_ascii b)%N ∨ (a = b ∧ String.le s t)).
Proof.
  unfold String.le, String.leb. split_and!.
  - by intros [].
  - intros a s. simpl. tauto.
  - intros a b s t. simpl. unfold Ascii.compare.
    destruct (N.compare_spec (N_of_ascii a) (N_of_ascii b)) as [He|Hl|Hg].
    + assert (a = b) as ->.
      { by rewrite <- (ascii_N_embedding a), <- (ascii_N_embedding b), He. }
      split; [by right|]. intros [?|[_ ?]]; [lia|done].
    + simpl. split; [by left|done].
    + simpl. split; [done|]. intros [?|[-> _]]; lia.
Qed.

Lemma lex_le_refl_key by_ r1 r2 :
  sort_key by_ r1 = sort_key by_ r2 → lex_le by_ r1 r2.
Proof.
  induction by_ as [|c by_ IH]; simpl; [done|].
  intros [= Hc Hk]. rewrite Hc. split; [reflexivity|auto].
Qed.

Global Instance lex_le_refl by_ : Reflexive (lex_le by_).
Proof. intros r. by apply lex_le_refl_key. Qed.

Global Instance lex_le_trans by_ : Transitive (lex_le by_).
Proof.
  intros r1 r2 r3. induction by_ as [|c by_ IH]; simpl; [done|].
  intros [H12 K12] [H23 K23]. split; [by etrans|].
  intros Heq. rewrite Heq in H12.
  assert (cell_at r2 c = cell_at r3 c) as H2 by by apply (anti_symm cell_le).
  apply IH; [apply K12; congruence|by apply K23].
Qed.

Global Instance lex_le_total by_ : Total (lex_le by_).
Proof.
  intros r1 r2. induction by_ as [|c by_ IH]; simpl; [by left|].
  destruct (decide (cell_at r1 c = cell_at r2 c)) as [Heq|Hne].
  - rewrite Heq. destruct IH as [IH|IH]; [left|right]; split;
      first [reflexivity|done].
  - destruct (total cell_le (cell_at r1 c) (cell_at r2 c));
      [left|right]; split; first [done|congruence].
Qed.

Lemma lex_le_antisym_key by_ r1 r2 :
  lex_le by_ r1 r2 → lex_le by_ r2 r1 → sort_key by_ r1 = sort_key by_ r2.
Proof.
  induction by_ as [|c by_ IH]; simpl; [done|].
  intros [H12 K12] [H21 K21].
  assert (cell_at r1 c = cell_at r2 c) as Heq by by apply (anti_symm cell_le).
  f_equal; [done|]. apply IH; auto.
Qed.

Lemma insert_row_Permutation by_ r l : insert_row by_ r l ≡ₚ r :: l.
Proof.
  induction l as [|r' l IH]; simpl; [done|].
  case_decide; [done|]. rewrite IH. apply Permutation_swap.
Qed.

Lemma stable_sort_Permutation by_ l : stable_sort by_ l ≡ₚ l.
Proof.
  induction l as [|r l IH]; simpl; [done|].
  fold (stable_sort by_ l). by rewrite insert_row_Permutation, IH.
Qed.

Lemma insert_row_sorted by_ r l :
  StronglySorted (lex_le by_) l →
  StronglySorted (lex_le by_) (insert_row by_ r l).
Proof.
  induction 1 as [|r' l Hs IH Hall]; simpl.
  - repeat constructor.
  - case_decide as Hle.
    + constructor; [by constructor|]. constructor; [done|].
      eapply Forall_impl; [exact Hall|]. intros r'' ?. by etrans.
    + constructor; [done|].
      rewrite insert_row_Permutation. constructor; [|done].
      by destruct (total (lex_le by_) r r').
Qed.

Lemma stable_sort_sorted by_ l : StronglySorted (lex_le by_) (stable_sort by_ l).
Proof.
  induction l as [|r l IH]; simpl; [constructor|].
  by apply insert_row_sorted.
Qed.

(** Inserting a row does not change the order among rows of one key. *)
Lemma filter_insert_row by_ r0 r l :
  filter (same_key by_ r0) (insert_row by_ r l)
  = filter (same_key by_ r0) (r :: l).
Proof.
  induction l as [|r' l IH]; simpl; [done|].
  case_decide as Hle; [done|].
  rewrite (filter_cons _ r'), IH, !(filter_cons _ r), (filter_cons _ r').
  destruct (decide (same_key by_ r0 r')) as [H'|H']; [|done].
  destruct (decide (same_key by_ r0 r)) as [H|H]; [|done].
  destruct Hle. apply lex_le_refl_key. unfold same_key in *. congruence.
Qed.

Lemma stable_sort_stable by_ r0 l :
  filter (same_key by_ r0) (stable_sort by_ l) = filter (same_key by_ r0) l.
Proof.
  induction l as [|r l IH]; simpl; [done|]. fold (stable_sort by_ l).
  by rewrite filter_insert_row, !filter_cons, IH.
Qed.

(** Two sorted arrangements of the same rows that keep the rows of
    each key in the same order are equal. *)
Lemma stable_sorted_eq by_ l1 l2 :
  l1 ≡ₚ l2 →
  StronglySorted (lex_le by_) l1 → StronglySorted (lex_le by_) l2 →
  (∀ r0, filter (same_key by_ r0) l1 = filter (same_key by_ r0) l2) →
  l1 = l2.
Proof.
  revert l2. induction l1 as [|x l1 IH]; intros l2 Hp Hs1 Hs2 Hf.
  - by apply Permutation_nil_l in Hp.
  - destruct l2 as [|y l2]; [by apply Permutation_nil_r in Hp|].
    apply StronglySorted_inv in Hs1 as [Hs1 Hx].
    apply StronglySorted_inv in Hs2 as [Hs2 Hy].
    assert (lex_le by_ x y) as Hxy.
    { assert (y ∈ x :: l1) as [->|Hin]%elem_of_cons
        by (rewrite Hp; left); [reflexivity|].
      by apply (proj1 (Forall_forall _ _) Hx). }
    assert (lex_le by_ y x) as Hyx.
    { assert (x ∈ y :: l2) as [->|Hin]%elem_of_cons
        by (rewrite <- Hp; left); [reflexivity|].
      by apply (proj1 (Forall_forall _ _) Hy). }
    pose proof (lex_le_antisym_key _ _ _ Hxy Hyx) as Hkey.
    pose proof (Hf x) as Hfx.
    rewrite filter_cons_True in Hfx by done.
    rewrite filter_cons_True in Hfx by (unfold same_key; congruence).
    injection Hfx as <- _. f_equal.
    apply IH; [by apply Permutation_cons_inv in Hp|done|done|].
    intros r0. specialize (Hf r0). rewrite !filter_cons in Hf.
    destruct (decide (same_key by_ r0 x)); congruence.
Qed.

(** A stable sort has one possible result. *)
Lemma stable_sort_unique by_ l l' :
  l' ≡ₚ l →
  StronglySorted (lex_le by_) l' →
  (∀ r0, filter (same_key by_ r0) l' = filter (same_key by_ r0) l) →
  l' = stable_sort by_ l.
Proof.
  intros Hp Hs Hf. apply (stable_sorted_eq by_).
  - by rewrite stable_sort_Permutation.
  - done.
  - apply stable_sort_sorted.
  - intros r0. by rewrite stable_sort_stable.
Qed.

Lemma sort_values_Ok (df df' : DataFrame) (by_ : list string) :
  sort_values df by_ = Ok df' →
  columns df' = columns df ∧ rows df' = stable_sort by_ (rows df).
Proof.
  unfold sort_values. destruct (filter _ by_); [|discriminate].
  by intros [= <-].
Qed.

Lemma sort_values_elem (df : DataFrame) (by_ : list string) :
  (∀ c, c ∈ by_ → c ∈ columns df) →
  sort_values df by_
  = Ok {| columns := columns df; rows := stable_sort by_ (rows df) |}.
Proof.
  intros Hin. unfold sort_values.
  destruct (filter _ by_) as [|c cs] eqn:Hf; [done|].
  assert (c ∈ filter (λ c, c ∉ columns df) by_) as Hc by (rewrite Hf; left).
  apply list_elem_of_filter in Hc as [Hc1 Hc2]. destruct Hc1. by apply Hin.
Qed.

End sorting.

(** C4: on a frame that has the three sort columns, the sorting
    stage succeeds and returns the same columns and the same rows in
    an order that is ascending for the key (date, then state, then
    district), with texts compared character by character by their
    codes (missing values come last); the rows that have one and the
    same key stand in the output in the order they had in the
    input. *)
Theorem sort_values_stable (df : DataFrame) :
  (∀ c, c ∈ sort_cols → c ∈ columns df) →
  ∃ df',
    sort_values df sort_cols = Ok df'
    ∧ columns df' = columns df
    ∧ rows df' ≡ₚ rows df
    ∧ StronglySorted (lex_le sort_cols) (rows df')
    ∧ (∀ r0, filter (same_key sort_cols r0) (rows df')
             = filter (same_key sort_cols r0) (rows df))
    ∧ (∀ r1 r2,
         lex_le sort_cols r1 r2
         ↔ cell_le (cell_at r1 "date") (cell_at r2 "date")
           ∧ (cell_at r1 "date" = cell_at r2 "date" →
              cell_le (cell_at r1 "state") (cell_at r2 "state")
              ∧ (cell_at r1 "state" = cell_at r2 "state" →
                 cell_le (cell_at r1 "district") (cell_at r2 "district"))))
    ∧ (∀ r0 r,
         same_key sort_cols r0 r
         ↔ cell_at r "date" = cell_at r0 "date"
           ∧ cell_at r "state" = cell_at r0 "state"
           ∧ cell_at r "district" = cell_at r0 "district")
    ∧ (∀ s t, cell_le (Str s) (Str t) ↔ String.le s t)
    ∧ (∀ a b s t,
         String.le (String a s) (String b t)
         ↔ (N_of_ascii a < N_of_ascii b)%N ∨ (a = b ∧ String.le s t)).
Proof.
  intros Hcols. eexists. split; [by apply sort_values_elem|].
  cbn [columns rows]. split_and!.
  - reflexivity.
  - apply stable_sort_Permutation.
  - apply stable_sort_sorted.
  - intros r0. apply stable_sort_stable.
  - intros r1 r2. unfold sort_cols. cbn [lex_le]. tauto.
  - intros r0 r. unfold same_key, sort_key, sort_cols. cbn [fmap list_fmap].
    split; [by intros [= -> -> ->]|by intros (-> & -> & ->)].
  - reflexivity.
  - apply string_le_lex.
Qed.

Lemma sort_values_stable_witness :
  (∀ c, c ∈ sort_cols → c ∈ columns three_rows)
  ∧ ∃ df',
      sort_values three_rows sort_cols = Ok df'
      ∧ rows df' ≡ₚ rows three_rows
      ∧ StronglySorted (lex_le sort_cols) (rows df').
Proof.
  assert (∀ c, c ∈ sort_cols → c ∈ columns three_rows) as Hcols.
  { intros c Hc. unfold sort_cols in Hc.
    repeat (apply elem_of_cons in Hc as [->|Hc]);
      [apply (bool_decide_unpack _); vm_compute; exact I..|].
    by apply elem_of_nil in Hc. }
  split; [exact Hcols|].
  destruct (sort_values_stable three_rows Hcols)
    as (df' & Hrun & _ & Hperm & Hsorted & _).
  exists df'. split_and!; assumption.
Defined.

(** ** The pipeline *)

Section pipeline.

Lemma standardize_states_Ok (df df' : DataFrame) :
  standardize_states df = Ok df' →
  "state" ∈ columns df
  ∧ columns df'
    = (if decide ("state_original" ∈ columns df) then columns df
       else columns df ++ ["state_original"])
  ∧ rows df' = state_row <$> rows df.
Proof.
  unfold standardize_states.
  destruct (pd.getitem df "state") as [st|] eqn:Hst; [|discriminate].
  apply getitem_Ok in Hst as [Hin ->].
  set (df1 := pd.setitem df "state_original" _).
  destruct (pd.getitem df1 "state") as [st|] eqn:Hst; [|discriminate].
  apply getitem_Ok in Hst as [Hin1 ->]. intros [= <-].
  split; [exact Hin|]. split.
  - rewrite columns_setitem_elem by exact Hin1. reflexivity.
  - rewrite <- list_fmap_compose, rows_setitem_fmap.
    unfold df1. rewrite rows_setitem_fmap, <- list_fmap_compose.
    reflexivity.
Qed.

Lemma str_accessor_Ok (col col' : list cell) :
  pd.str_accessor col = Ok col' → col' = col.
Proof.
  unfold pd.str_accessor. destruct col; [by intros [= <-]|].
  destruct (existsb _ _); [by intros [= <-]|discriminate].
Qed.

Lemma standardize_districts_Ok (df df' : DataFrame) :
  standardize_districts df = Ok df' →
  "district" ∈ columns df ∧ columns df' = columns df
  ∧ rows df' = district_row <$> rows df.
Proof.
  unfold standardize_districts.
  destruct (pd.getitem df "district") as [col|] eqn:Hcol; [|discriminate].
  apply getitem_Ok in Hcol as [Hin ->].
  unfold pd.str_strip, pd.str_title.
  destruct (pd.str_accessor _) as [col1|] eqn:H1; [|discriminate].
  apply str_accessor_Ok in H1 as ->.
  destruct (pd.str_accessor _) as [col2|] eqn:H2; [|discriminate].
  apply str_accessor_Ok in H2 as ->. intros [= <-].
  split; [exact Hin|]. split; [by apply columns_setitem_elem|].
  rewrite <- !list_fmap_compose. apply rows_setitem_fmap.
Qed.

Lemma convert_dates_Ok (df df' : DataFrame) :
  convert_dates df = Ok df' →
  "date" ∈ columns df ∧ columns df' = columns df
  ∧ rows df' = date_row <$> rows df.
Proof.
  unfold convert_dates.
  destruct (pd.getitem df "date") as [col|] eqn:Hcol; [|discriminate].
  apply getitem_Ok in Hcol as [Hin ->]. intros [= <-].
  split; [exact Hin|]. split; [by apply columns_setitem_elem|].
  rewrite <- !list_fmap_compose. apply rows_setitem_fmap.
Qed.

Lemma convert_dates_elem (df : DataFrame) :
  "date" ∈ columns df →
  convert_dates df
  = Ok {| columns := columns df; rows := date_row <$> rows df |}.
Proof.
  intros Hin. destruct (convert_dates df) as [df'|e] eqn:H.
  - apply convert_dates_Ok in H as (_ & Hc & Hr).
    destruct df'. simpl in *. by subst.
  - unfold convert_dates in H. by rewrite (getitem_elem _ _ Hin) in H.
Qed.

Lemma select_Ok (df df' : DataFrame) (cols : list string) :
  pd.select df cols = Ok df' →
  columns df' = cols ∧ rows df' = reindex cols <$> rows df.
Proof.
  unfold pd.select. destruct (filter _ cols); [|discriminate].
  by intros [= <-].
Qed.

Lemma filter_ne_snoc (c : string) (cols : list string) :
  filter (λ c', c' ≠ c) (cols ++ [c]) = filter (λ c', c' ≠ c) cols.
Proof.
  rewrite filter_app, filter_cons_False, filter_nil, app_nil_r; [done|].
  by intros H.
Qed.

(** What a successful run of [clean_dataset] has done. *)
Lemma clean_dataset_Ok (input_dir : list DataFrame)
    (output_base dataset_name : string) (d d' : disk) (st : stats) :
  run (clean_dataset input_dir output_base dataset_name) d = (Ok st, d') →
  ∃ df out,
    pd.concat input_dir = Ok df
    ∧ (∀ c, c ∈ ["state"; "district"; "date"; "pincode"] → c ∈ columns df)
    ∧ columns out
      = filter (λ c, c ≠ "state_original") (columns df) ++ ["state_original"]
    ∧ rows out
      = reindex (columns out)
        <$> stable_sort sort_cols
              (clean_row <$> pd.drop_duplicates_rows (rows df))
    ∧ run (split_and_save out output_base EXCEL_MAX_ROWS) d
      = (Ok (files_info st), d')
    ∧ dataset st = dataset_name
    ∧ original_rows st = len df
    ∧ duplicates_removed st = len df - len (pd.drop_duplicates df)
    ∧ final_rows st = len out.
Proof.
  unfold clean_dataset. cbv zeta.
  rewrite run_bind, run_lift.
  destruct (pd.concat input_dir) as [df|] eqn:Hdf; [|discriminate].
  cbv beta iota. rewrite run_bind, run_lift.
  destruct (standardize_states _) as [df1|] eqn:H1; [|discriminate].
  cbv beta iota. rewrite run_bind, run_lift.
  destruct (pd.getitem df1 "state") as [state1|] eqn:Hs1; [|discriminate].
  cbv beta iota. rewrite run_bind, run_lift.
  destruct (standardize_districts df1) as [df2|] eqn:H2; [|discriminate].
  cbv beta iota. rewrite run_bind, run_lift.
  destruct (convert_dates df2) as [df3|] eqn:H3; [|discriminate].
  cbv beta iota. rewrite run_bind, run_lift.
  destruct (validate_pincodes df3) as [df4|] eqn:H4; [|discriminate].
  cbv beta iota. rewrite run_bind, run_lift.
  destruct (sort_values df4 sort_cols) as [df5|] eqn:H5; [|discriminate].
  cbv beta iota. rewrite run_bind, run_lift.
  destruct (reorder_columns df5) as [out|] eqn:H6; [|discriminate].
  cbv beta iota. rewrite run_bind.
  destruct (run (split_and_save out output_base EXCEL_MAX_ROWS) d)
    as [[infos|] d1] eqn:Hsplit; [|discriminate].
  rewrite run_bind, run_lift.
  destruct (pd.getitem out "state") as [state2|] eqn:Hs2; [|discriminate].
  cbv beta iota. rewrite run_ret. intros [= <- <-].
  apply standardize_states_Ok in H1 as (Hi1 & Hc1 & Hr1).
  apply standardize_districts_Ok in H2 as (Hi2 & Hc2 & Hr2).
  apply convert_dates_Ok in H3 as (Hi3 & Hc3 & Hr3).
  apply validate_pincodes_Ok in H4 as (Hi4 & Hc4 & Hr4).
  apply sort_values_Ok in H5 as (Hc5 & Hr5).
  unfold reorder_columns in H6. apply select_Ok in H6 as (Hc6 & Hr6).
  exists df, out. cbn [dataset original_rows duplicates_removed final_rows
                       files_info].
  split; [reflexivity|]. split.
  { rewrite Hc3, Hc2 in Hi4. rewrite Hc2 in Hi3.
    cbn [columns pd.drop_duplicates] in Hi1, Hc1.
    assert (∀ c, c ≠ "state_original" → c ∈ columns df1 → c ∈ columns df)
      as Hback.
    { intros c Hne. rewrite Hc1. destruct (decide _); [done|].
      rewrite elem_of_app, list_elem_of_singleton. by intros [?|?]. }
    intros c Hc.
    repeat (apply elem_of_cons in Hc as [->|Hc]);
      [exact Hi1|by apply Hback..|by apply elem_of_nil in Hc]. }
  split.
  { rewrite Hc6, Hc5, Hc4, Hc3, Hc2, Hc1. cbn [columns pd.drop_duplicates].
    destruct (decide _); [reflexivity|]. by rewrite filter_ne_snoc. }
  split.
  { rewrite Hr6, <- Hc6, Hr5, Hr4, Hr3, Hr2, Hr1.
    rewrite <- !list_fmap_compose. reflexivity. }
  split; [exact Hsplit|]. split_and!; reflexivity.
Qed.

End pipeline.

(** ** What reaches the files *)

Section output.

Lemma cell_at_reindex (cols : list string) (r : gmap string cell)
    (c : string) :
  c ∈ cols → cell_at (reindex cols r) c = cell_at r c.
Proof.
  unfold reindex, cell_at at 1. induction cols as [|c' cols IH]; intros Hc.
  - by apply elem_of_nil in Hc.
  - cbn [fmap list_fmap list_to_map foldr].
    destruct (decide (c' = c)) as [->|Hne].
    + by rewrite lookup_insert_eq.
    + rewrite lookup_insert_ne by done. apply IH.
      by apply elem_of_cons in Hc as [?|?].
Qed.


Lemma cell_at_clean_row_state (r : gmap string cell) :
  cell_at (clean_row r) "state" = Str (standardize_state (cell_at r "state")).
Proof.
  unfold clean_row, pincode_row, date_row, district_row, state_row.
  cbv zeta. rewrite !(cell_at_insert_ne _ _ "state") by done.
  rewrite cell_at_insert. by rewrite cell_at_insert_ne.
Qed.

Lemma cell_at_clean_row_date (r : gmap string cell) :
  cell_at (clean_row r) "date"
  = datetime.strftime_ymd (datetime.to_datetime (cell_at r "date")).
Proof.
  unfold clean_row, pincode_row, date_row, district_row, state_row.
  cbv zeta. rewrite (cell_at_insert_ne _ "pincode") by done.
  rewrite cell_at_insert. by rewrite !cell_at_insert_ne.
Qed.

(** The files of a successful call hold the frame. *)
Lemma split_and_save_written (df : DataFrame) (output_base : string)
    (max_rows : Z) (d d' : disk) (infos : list file_info) :
  1 ≤ max_rows →
  run (split_and_save df output_base max_rows) d = (Ok infos, d') →
  ∃ parts,
    d' = d ++ parts ∧ rows_on parts = rows df
    ∧ Forall (λ w, columns (content w) = columns df) parts.
Proof.
  intros Hm Hrun.
  rewrite (split_and_save_run df output_base max_rows d Hm) in Hrun.
  pose proof (parts_count df max_rows Hm) as (Hk1 & Hk2 & _).
  cbv zeta in Hrun, Hk1, Hk2. injection Hrun as _ <-.
  eexists. split; [reflexivity|]. split.
  - apply rows_on_parts_written; lia.
  - unfold parts_written. apply Forall_fmap, Forall_forall.
    intros i _. reflexivity.
Qed.

Lemma StronglySorted_lookup_lt {A} (R : relation A) (l : list A)
    (i j : nat) (x y : A) :
  StronglySorted R l → l !! i = Some x → l !! j = Some y → (i < j)%nat →
  R x y.
Proof.
  intros Hs. revert i j. induction Hs as [|a l Hs IH Hall]; intros i j Hi Hj Hij.
  - done.
  - destruct j as [|j]; [lia|]. destruct i as [|i]; simpl in *.
    + injection Hi as <-.
      apply (proj1 (Forall_forall _ _) Hall), (list_elem_of_lookup_2 _ _ _ Hj).
    + apply (IH i j); [done..|lia].
Qed.

(** Every row of the output comes from a row that survived the
    removal of duplicates, cleaned and laid out on the final columns;
    the output is sorted. *)
Lemma clean_dataset_written (input_dir : list DataFrame)
    (output_base dataset_name : string) (d d' : disk) (st : stats) :
  run (clean_dataset input_dir output_base dataset_name) d = (Ok st, d') →
  ∃ df cols parts,
    pd.concat input_dir = Ok df
    ∧ (∀ c, c ∈ ["state"; "district"; "date"; "pincode"] → c ∈ columns df)
    ∧ cols
      = filter (λ c, c ≠ "state_original") (columns df) ++ ["state_original"]
    ∧ d' = d ++ parts
    ∧ Forall (λ w, columns (content w) = cols) parts
    ∧ rows_on parts
      = reindex cols
        <$> stable_sort sort_cols
              (clean_row <$> pd.drop_duplicates_rows (rows df))
    ∧ final_rows st = Z.of_nat (length (pd.drop_duplicates_rows (rows df))).
Proof.
  intros (df & out & Hdf & Hcols & Hc & Hr & Hsplit & _ & _ & _ & Hfinal)
    %clean_dataset_Ok.
  apply split_and_save_written in Hsplit as (parts & -> & Hrows & Hpc);
    [|by vm_compute].
  exists df, (columns out), parts. split_and!; try done.
  - by rewrite Hrows.
  - rewrite Hfinal. unfold len. rewrite Hr, length_fmap.
    by rewrite stable_sort_Permutation, length_fmap.
Qed.

End output.

(** C8: when the input directory yields no CSV file, [clean_dataset]
    raises the [ValueError] of [pd.concat] on an empty list; the error
    is the result of the run and the disk is as it was before: no file
    is written for the dataset. *)
Theorem clean_dataset_no_files (output_base dataset_name : string)
    (d : disk) :
  run (clean_dataset [] output_base dataset_name) d
  = (Raise (ValueError "No objects to concatenate"), d).
Proof. reflexivity. Qed.





Lemma cell_le_NA (v : cell) : cell_le NA v → v = NA.
Proof. by destruct v. Qed.

(** C10: the sentinel of a date that does not parse is the missing
    value, and the sort puts it last: in the rows that a successful
    run writes, read file after file, every row with a missing date
    stands after every row with a date.  The date cell of an output
    row is either missing or the text of a parsed day.  (The embedding
    is a function, so the same input gives the same placement.) *)
Theorem invalid_dates_last :
  (∀ input_dir output_base dataset_name d d' st,
     run (clean_dataset input_dir output_base dataset_name) d = (Ok st, d') →
     ∃ parts,
       d' = d ++ parts
       ∧ (∀ r, r ∈ rows_on parts →
            cell_at r "date" = NA
            ∨ ∃ t, cell_at r "date" = datetime.strftime_ymd (Some t))
       ∧ ∀ (i j : nat) ri rj,
           rows_on parts !! i = Some ri → rows_on parts !! j = Some rj →
           cell_at ri "date" = NA → cell_at rj "date" ≠ NA →
           (j < i)%nat)
  ∧ (∃ st d',
       run (clean_dataset [mixed_dates] "out/bio" "BIOMETRIC") []
       = (Ok st, d')
       ∧ (λ r, cell_at r "date") <$> rows_on d'
         = [Str "2025-03-01"; Str "2025-03-02"; NA; NA]).
Proof.
  split.
  - intros input_dir output_base dataset_name d d' st Hrun.
    apply clean_dataset_written
      in Hrun as (df & cols & parts & Hdf & Hin & -> & -> & Hpc & Hrows & Hf).
    assert ("date" ∈ filter (λ c, c ≠ "state_original") (columns df)
                     ++ ["state_original"]) as Hdate.
    { rewrite elem_of_app. left. apply list_elem_of_filter.
      split; [done|]. apply Hin. do 2 right. by left. }
    exists parts. split; [done|]. rewrite Hrows. split.
    + intros r (r1 & -> & Hr1)%list_elem_of_fmap.
      rewrite stable_sort_Permutation in Hr1.
      apply list_elem_of_fmap in Hr1 as (r0 & -> & Hr0).
      rewrite (cell_at_reindex _ _ _ Hdate), cell_at_clean_row_date.
      destruct (datetime.to_datetime _) as [t|]; [right; by exists t|by left].
    + intros i j ri rj Hi Hj Hna Hdt.
      apply list_lookup_fmap_Some in Hi as (ri' & -> & Hi).
      apply list_lookup_fmap_Some in Hj as (rj' & -> & Hj).
      rewrite (cell_at_reindex _ _ _ Hdate) in Hna.
      rewrite (cell_at_reindex _ _ _ Hdate) in Hdt.
      destruct (decide (j < i)%nat) as [|Hge]; [done|].
      destruct (decide (i = j)) as [->|Hne]; [congruence|].
      assert (lex_le sort_cols ri' rj') as [Hle _].
      { eapply StronglySorted_lookup_lt;
          [apply stable_sort_sorted|exact Hi|exact Hj|lia]. }
      rewrite Hna in Hle. by apply cell_le_NA in Hle.
  - eexists _, _. split; vm_compute; reflexivity.
Qed.

Lemma invalid_dates_last_witness :
  ∃ parts,
    (∀ r, r ∈ rows_on parts →
       cell_at r "date" = NA
       ∨ ∃ t, cell_at r "date" = datetime.strftime_ymd (Some t))
    ∧ ∀ (i j : nat) ri rj,
        rows_on parts !! i = Some ri → rows_on parts !! j = Some rj →
        cell_at ri "date" = NA → cell_at rj "date" ≠ NA →
        (j < i)%nat.
Proof.
  destruct invalid_dates_last as [Hrun _].
  destruct (run (clean_dataset [mixed_dates] "out/bio" "BIOMETRIC") [])
    as [[st|e] d'] eqn:E.
  - destruct (Hrun _ _ _ _ _ _ E) as (parts & _ & Hcells & Hlast).
    exists parts. split; assumption.
  - vm_compute in E. discriminate E.
Defined.

(** ** Dates *)

Section dates.

Import datetime.

Lemma split_nonempty (sep : ascii) (s : string) : split sep s ≠ [].
Proof.
  destruct s as [|c s]; simpl; [done|].
  case_bool_decide; [done|]. by destruct (split sep s).
Qed.

(** Splitting loses nothing. *)
Lemma join_split (sep : ascii) (s : string) : join sep (split sep s) = s.
Proof.
  induction s as [|c s IH]; [done|]. simpl.
  pose proof (split_nonempty sep s) as Hne.
  case_bool_decide as Hc.
  - subst c. destruct (split sep s) as [|p ps] eqn:Hs; [done|].
    change (join sep ("" :: p :: ps)) with (String sep (join sep (p :: ps))).
    by rewrite IH.
  - destruct (split sep s) as [|p ps] eqn:Hs; [done|].
    destruct ps as [|q ps]; simpl in *; by rewrite <- IH.
Qed.

Lemma in_range_spec (lo hi c : ascii) :
  in_range lo hi c = true
  ↔ (N_of_ascii lo ≤ N_of_ascii c ≤ N_of_ascii hi)%N.
Proof. unfold in_range. rewrite andb_true_iff, !N.leb_le. tauto. Qed.

Local Ltac eval_codes :=
  repeat match goal with
  | |- context [N_of_ascii (Ascii ?a ?b ?c ?d ?e ?f ?g ?h)] =>
      let v := eval vm_compute in (N_of_ascii (Ascii a b c d e f g h)) in
      change (N_of_ascii (Ascii a b c d e f g h)) with v
  | H : context [N_of_ascii (Ascii ?a ?b ?c ?d ?e ?f ?g ?h)] |- _ =>
      let v := eval vm_compute in (N_of_ascii (Ascii a b c d e f g h)) in
      change (N_of_ascii (Ascii a b c d e f g h)) with v in H
  end.

Local Ltac ranges :=
  repeat match goal with
  | H : _ || _ = true |- _ => apply orb_true_iff in H as [H|H]
  | H : _ && _ = true |- _ => apply andb_true_iff in H as [? ?]
  | H : bool_decide _ = true |- _ => apply bool_decide_eq_true in H; subst
  | H : in_range _ _ _ = true |- _ => apply in_range_spec in H
  end;
  unfold digit; eval_codes;
  repeat match goal with
  | |- context [N_of_ascii ?a] =>
      is_var a; generalize dependent (N_of_ascii a); intros
  end.

Lemma match_d_bounds (s : string) (d : Z) :
  match_d s = Some d → 1 ≤ d ≤ 31.
Proof.
  unfold match_d. destruct s as [|a [|b [|? ?]]]; [done| | |done].
  - destruct (in_range _ _ a) eqn:Ha; [|done]. intros [= <-].
    ranges. lia.
  - destruct (_ || _) eqn:H1.
    + intros [= <-]. ranges; lia.
    + destruct (bool_decide (a = " "%char) && in_range "1" "9" b) eqn:H2;
        [|done].
      intros [= <-]. clear H1. ranges. lia.
Qed.

Lemma match_m_bounds (s : string) (m : Z) :
  match_m s = Some m → 1 ≤ m ≤ 12.
Proof.
  unfold match_m. destruct s as [|a [|b [|? ?]]]; [done| | |done].
  - destruct (in_range _ _ a) eqn:Ha; [|done]. intros [= <-].
    ranges. lia.
  - destruct (_ || _) eqn:H1; [|done].
    intros [= <-]. ranges; lia.
Qed.

Lemma length_pretty_year (y : Z) :
  1677 ≤ y ≤ 2262 → String.length (pretty y) = 4%nat.
Proof.
  intros Hy.
  assert (Forall (λ y, String.length (pretty y) = 4%nat) (seqZ 1677 586))
    as Hall.
  { apply (bool_decide_unpack _). vm_compute. exact I. }
  apply (proj1 (Forall_seqZ _ _ _) Hall). lia.
Qed.



(** What a text that parses looks like, and what it becomes. *)
Lemma strptime_dmy_Some (s : string) (t : Timestamp) :
  strptime_dmy s = Some t →
  ∃ sd sm sy,
    s = sd +:+ "-" +:+ sm +:+ "-" +:+ sy
    ∧ match_d sd = Some (day t) ∧ match_m sm = Some (month t)
    ∧ match_Y sy = Some (year t)
    ∧ 1 ≤ month t ≤ 12
    ∧ 1 ≤ day t ≤ days_in_month (year t) (month t)
    ∧ 1677 ≤ year t ≤ 2262.
Proof.
  unfold strptime_dmy. pose proof (join_split "-" s) as Hjoin.
  destruct (split "-" s) as [|sd [|sm [|sy [|? ?]]]]; try done.
  destruct (match_d sd) as [d|] eqn:Hd; [|done].
  destruct (match_m sm) as [m|] eqn:Hm; [|done].
  destruct (match_Y sy) as [y|] eqn:Hy; [|done]. simpl.
  destruct (_ && _) eqn:Hok; [|done]. intros [= <-]. simpl.
  apply andb_true_iff in Hok as [Hdim Hb].
  apply Z.leb_le in Hdim. unfold in_bounds in Hb.
  apply andb_true_iff in Hb as [Hb1 Hb2].
  apply Z.leb_le in Hb1, Hb2.
  pose proof (match_d_bounds _ _ Hd). pose proof (match_m_bounds _ _ Hm).
  exists sd, sm, sy. split_and!; first [done|lia].
Qed.

End dates.




(** * Further properties *)

(** ** The splitter at its edges *)

Section splitter_edges.

Lemma num_parts_negative (n m : Z) : 0 ≤ n → m < 0 → num_parts n m ≤ 0.
Proof.
  intros Hn Hm. unfold num_parts.
  pose proof (Z.div_mod n m ltac:(lia)) as Hdm.
  pose proof (Z.mod_neg_bound n m Hm) as Hr.
  destruct (Z.eqb_spec (n `mod` m) 0) as [H0|H0]; nia.
Qed.

(** X1: a bound that is not positive.  With a negative [max_rows]
    the call succeeds, writes no file and returns no entry, whatever
    the frame holds; with [max_rows = 0] a frame with rows makes the
    call raise [ZeroDivisionError] before any file is written, and a
    frame without rows is written whole as part1. *)
Theorem split_and_save_nonpositive (df : DataFrame) (output_base : string)
    (max_rows : Z) (d : disk) :
  max_rows ≤ 0 →
  (max_rows < 0 →
     run (split_and_save df output_base max_rows) d = (Ok [], d))
  ∧ (max_rows = 0 → 0 < len df →
     run (split_and_save df output_base max_rows) d
     = (Raise ZeroDivisionError, d))
  ∧ (max_rows = 0 → len df = 0 →
     run (split_and_save df output_base max_rows) d
     = (Ok [ {| fi_file := part_name output_base 1; fi_rows := 0 |} ],
        d ++ [ {| file := part_name output_base 1; content := df |} ])).
Proof.
  intros _. assert (0 ≤ len df) as Hlen by (unfold len; lia).
  unfold split_and_save. cbv zeta. split_and!.
  - intros Hneg. rewrite (proj2 (Z.leb_gt _ _)) by lia.
    unfold floordiv, pymod. rewrite (proj2 (Z.eqb_neq max_rows 0)) by lia.
    rewrite run_bind, run_lift. cbv beta iota.
    rewrite run_bind, run_lift. cbv beta iota.
    fold (num_parts (len df) max_rows).
    rewrite seqZ_nil by (by apply num_parts_negative). reflexivity.
  - intros -> Hpos. rewrite (proj2 (Z.leb_gt _ _)) by lia. reflexivity.
  - intros -> Hz. rewrite Hz. reflexivity.
Qed.

Lemma split_and_save_nonpositive_witness :
  run (split_and_save three_rows "out/bio" (-5)) [] = (Ok [], [])
  ∧ run (split_and_save three_rows "out/bio" 0) []
    = (Raise ZeroDivisionError, []).
Proof.
  split.
  - apply (split_and_save_nonpositive three_rows "out/bio" (-5) []); lia.
  - apply (split_and_save_nonpositive three_rows "out/bio" 0 []);
      [lia|reflexivity|reflexivity].
Defined.

Lemma append_inj_r (s1 s2 t : string) : s1 +:+ t = s2 +:+ t → s1 = s2.
Proof.
  revert s2. induction s1 as [|c s1 IH]; intros [|c2 s2] H.
  - reflexivity.
  - exfalso. apply (f_equal String.length) in H.
    rewrite append_nil_l, append_cons in H. simpl in H.
    rewrite length_append in H. lia.
  - exfalso. apply (f_equal String.length) in H.
    rewrite append_nil_l, append_cons in H. simpl in H.
    rewrite length_append in H. lia.
  - rewrite !append_cons in H. injection H as -> H. f_equal. by apply IH.
Qed.

Global Instance part_name_inj (output_base : string) :
  Inj (=) (=) (part_name output_base).
Proof.
  intros n m H. unfold part_name in H.
  apply (inj (String.app output_base)) in H.
  apply (inj (String.app "_part")) in H.
  apply append_inj_r in H. by apply (inj pretty) in H.
Qed.

Lemma total_rows_of_parts (df : DataFrame) (output_base : string)
    (max_rows : Z) (l : list Z) (a : Z) :
  foldl (λ acc fi, acc + fi_rows fi) a
    ((λ i, {| fi_file := part_name output_base (i + 1);
              fi_rows := len (chunk df max_rows i) |}) <$> l)
  = a + Z.of_nat (length (mjoin ((λ i, rows (chunk df max_rows i)) <$> l))).
Proof.
  revert a. induction l as [|i l IH]; intros a; simpl; [lia|].
  rewrite IH, length_app, Nat2Z.inj_add, Z.add_assoc. reflexivity.
Qed.

(** What a successful call returns and writes. *)
Lemma split_and_save_infos df (output_base : string) (max_rows : Z)
    (d d' : disk) (infos : list file_info) :
  1 ≤ max_rows →
  run (split_and_save df output_base max_rows) d = (Ok infos, d') →
  ∃ parts,
    d' = d ++ parts ∧ parts ≠ [] ∧ rows_on parts = rows df
    ∧ Forall (λ w, columns (content w) = columns df) parts
    ∧ file <$> parts
      = part_name output_base <$> seqZ 1 (Z.of_nat (length parts))
    ∧ fi_file <$> infos = file <$> parts
    ∧ fi_rows <$> infos = (len ∘ content) <$> parts
    ∧ NoDup (file <$> parts)
    ∧ total_rows_of infos = len df.
Proof.
  intros Hm Hrun.
  rewrite (split_and_save_run df output_base max_rows d Hm) in Hrun.
  pose proof (parts_count df max_rows Hm) as (Hk1 & Hk2 & _).
  cbv zeta in Hrun, Hk1, Hk2.
  set (k := if decide (len df ≤ max_rows) then 1
            else num_parts (len df) max_rows) in *.
  pose proof (rows_on_parts_written df output_base max_rows k
                ltac:(lia) ltac:(lia) Hk2) as Hrows.
  injection Hrun as <- <-. eexists. split; [reflexivity|]. split_and!.
  - unfold parts_written. rewrite (seqZ_cons 0 k) by lia. done.
  - exact Hrows.
  - unfold parts_written. apply Forall_fmap, Forall_forall.
    intros i _. reflexivity.
  - unfold parts_written. rewrite length_fmap, length_seqZ, Z2Nat.id by lia.
    change (seqZ 1 k) with (seqZ (1 + 0) k).
    rewrite <- (fmap_add_seqZ 1 0 k), <- !list_fmap_compose.
    apply list_fmap_ext. intros j i _. simpl. f_equal. lia.
  - unfold parts_info, parts_written. by rewrite <- !list_fmap_compose.
  - unfold parts_info, parts_written. by rewrite <- !list_fmap_compose.
  - unfold parts_written. rewrite <- list_fmap_compose.
    assert (Inj (=) (=) (λ i, part_name output_base (i + 1))) as Hinj.
    { intros i j Hij. apply (inj (part_name output_base)) in Hij. lia. }
    apply (NoDup_fmap_2 (λ i, part_name output_base (i + 1))), NoDup_seqZ.
  - unfold total_rows_of, parts_info. rewrite total_rows_of_parts.
    unfold rows_on, parts_written in Hrows.
    rewrite <- list_fmap_compose in Hrows.
    change ((rows ∘ content) ∘ _) with (λ i, rows (chunk df max_rows i))
      in Hrows.
    rewrite Hrows. unfold len. lia.
Qed.

(** X2: for a bound of at least 1, the entries that [split_and_save]
    returns describe the files it wrote, one entry per file and in the
    same order: same name, and as many rows as the file holds.  At
    least one file is written, no file name is used twice, and the row
    counts add up to the number of rows of the frame (the total that
    [generate_split_summary] prints). *)
Theorem split_and_save_info (df : DataFrame) (output_base : string)
    (max_rows : Z) (d d' : disk) (infos : list file_info) :
  1 ≤ max_rows →
  run (split_and_save df output_base max_rows) d = (Ok infos, d') →
  ∃ parts,
    d' = d ++ parts
    ∧ parts ≠ []
    ∧ fi_file <$> infos = file <$> parts
    ∧ fi_rows <$> infos = (len ∘ content) <$> parts
    ∧ NoDup (file <$> parts)
    ∧ total_rows_of infos = len df.
Proof.
  intros Hm Hrun.
  apply split_and_save_infos in Hrun
    as (parts & -> & Hne & _ & _ & _ & Hfile & Hrows & Hnd & Htot); [|done].
  by exists parts.
Qed.

Lemma split_and_save_info_witness :
  ∃ infos parts,
    run (split_and_save three_rows "out/bio" 2) [] = (Ok infos, [] ++ parts)
    ∧ NoDup (file <$> parts)
    ∧ total_rows_of infos = len three_rows.
Proof.
  destruct (run (split_and_save three_rows "out/bio" 2) [])
    as [[infos|e] d'] eqn:E.
  - destruct (split_and_save_info three_rows "out/bio" 2 [] d' infos
                ltac:(lia) E) as (parts & -> & _ & _ & _ & Hnd & Htot).
    exists infos, parts. split_and!; [reflexivity|assumption..].
  - vm_compute in E. discriminate E.
Defined.

End splitter_edges.
(** ** When the pipeline succeeds and how it fails *)

Section pipeline_runs.

Implicit Types (df : DataFrame).








Lemma standardize_states_succeeds df :
  "state" ∈ columns df → ∃ df', standardize_states df = Ok df'.
Proof.
  intros Hin. unfold standardize_states. rewrite (getitem_elem _ _ Hin).
  rewrite getitem_elem; [by eexists|].
  apply elem_columns_setitem. by left.
Qed.








End pipeline_runs.
Section pipeline_outcomes.

Implicit Types (df : DataFrame) (input_dir : list DataFrame).

(** The run of [clean_dataset], block after block. *)
Lemma clean_dataset_unfold input_dir (output_base dataset_name : string)
    (d : disk) :
  run (clean_dataset input_dir output_base dataset_name) d
  = match pd.concat input_dir with
    | Raise e => (Raise e, d)
    | Ok df =>
    match standardize_states (pd.drop_duplicates df) with
    | Raise e => (Raise e, d)
    | Ok df1 =>
    match pd.getitem df1 "state" with
    | Raise e => (Raise e, d)
    | Ok state1 =>
    match standardize_districts df1 with
    | Raise e => (Raise e, d)
    | Ok df2 =>
    match convert_dates df2 with
    | Raise e => (Raise e, d)
    | Ok df3 =>
    match validate_pincodes df3 with
    | Raise e => (Raise e, d)
    | Ok df4 =>
    match sort_values df4 sort_cols with
    | Raise e => (Raise e, d)
    | Ok df5 =>
    match reorder_columns df5 with
    | Raise e => (Raise e, d)
    | Ok out =>
    match run (split_and_save out output_base EXCEL_MAX_ROWS) d with
    | (Raise e, d1) => (Raise e, d1)
    | (Ok infos, d1) =>
    match pd.getitem out "state" with
    | Raise e => (Raise e, d1)
    | Ok state2 =>
        (Ok {| dataset := dataset_name;
               original_rows := len df;
               duplicates_removed := len df - len (pd.drop_duplicates df);
               invalid_states :=
                 Z.of_nat (length (filter (λ v, v = Str INVALID) state1));
               final_rows := len out;
               unique_states := nunique state2;
               files_info := infos |}, d1)
    end end end end end end end end end end.
Proof. reflexivity. Qed.

(** The columns after the state block. *)
Lemma columns_standardize_states df df1 (c : string) :
  standardize_states df = Ok df1 →
  c ∈ columns df1 ↔ c ∈ columns df ∨ c = "state_original".
Proof.
  intros (_ & Hc & _)%standardize_states_Ok. rewrite Hc.
  destruct (decide _) as [Hso|Hso].
  - split; [by left|]. by intros [?| ->].
  - by rewrite elem_of_app, list_elem_of_singleton.
Qed.











End pipeline_outcomes.
(** ** The statistics and the rows of a successful run *)

Section statistics.

Implicit Types (df : DataFrame) (input_dir : list DataFrame).

Lemma length_filter_fmap {A B} (P : B → Prop) `{!∀ x, Decision (P x)}
    (f : A → B) (l : list A) :
  length (filter P (f <$> l)) = length (filter (P ∘ f) l).
Proof.
  induction l as [|x l IH]; [done|].
  rewrite fmap_cons, !filter_cons. simpl.
  destruct (decide (P (f x))); simpl; by rewrite IH.
Qed.

Lemma length_filter_Permutation {A} (P : A → Prop) `{!∀ x, Decision (P x)}
    (l k : list A) :
  l ≡ₚ k → length (filter P l) = length (filter P k).
Proof. intros Hp. by rewrite Hp. Qed.

Lemma length_concat_rows input_dir df :
  pd.concat input_dir = Ok df →
  len df = foldr (λ df' n, len df' + n) 0 input_dir.
Proof.
  assert (∀ cols (l : list DataFrame),
    Z.of_nat (length (mjoin ((λ df', reindex cols <$> rows df') <$> l)))
    = foldr (λ df' n, len df' + n) 0 l) as Hlen.
  { intros cols l. induction l as [|df' l IH]; [done|].
    simpl. rewrite length_app, length_fmap, Nat2Z.inj_add. f_equal.
    exact IH. }
  unfold pd.concat. destruct input_dir as [|df0 dfs]; [done|].
  intros [= <-]. exact (Hlen _ (df0 :: dfs)).
Qed.

(** What a successful run returns and writes. *)
Lemma clean_dataset_stats input_dir (output_base dataset_name : string)
    (d d' : disk) (st : stats) :
  run (clean_dataset input_dir output_base dataset_name) d = (Ok st, d') →
  ∃ df cols parts,
    pd.concat input_dir = Ok df
    ∧ (∀ c, c ∈ ["state"; "district"; "date"; "pincode"] → c ∈ columns df)
    ∧ cols
      = filter (λ c, c ≠ "state_original") (columns df) ++ ["state_original"]
    ∧ d' = d ++ parts
    ∧ parts ≠ []
    ∧ Forall (λ w, columns (content w) = cols) parts
    ∧ file <$> parts
      = part_name output_base <$> seqZ 1 (Z.of_nat (length parts))
    ∧ NoDup (file <$> parts)
    ∧ rows_on parts
      = reindex cols
        <$> stable_sort sort_cols
              (clean_row <$> pd.drop_duplicates_rows (rows df))
    ∧ fi_file <$> files_info st = file <$> parts
    ∧ fi_rows <$> files_info st = (len ∘ content) <$> parts
    ∧ total_rows_of (files_info st) = final_rows st
    ∧ dataset st = dataset_name
    ∧ original_rows st = len df
    ∧ duplicates_removed st
      = len df - Z.of_nat (length (pd.drop_duplicates_rows (rows df)))
    ∧ final_rows st = Z.of_nat (length (pd.drop_duplicates_rows (rows df)))
    ∧ invalid_states st
      = Z.of_nat (length (filter
          (λ r, standardize_state (cell_at r "state") = INVALID)
          (pd.drop_duplicates_rows (rows df))))
    ∧ unique_states st = nunique ((λ r, cell_at r "state") <$> rows_on parts).
Proof.
  intros Hrun.
  pose proof Hrun as (df & out & Hdf & Hin & Hc & Hr & _)%clean_dataset_Ok.
  rewrite clean_dataset_unfold, Hdf in Hrun.
  destruct (standardize_states _) as [df1|] eqn:H1; [|done].
  destruct (pd.getitem df1 "state") as [state1|] eqn:Hs1; [|done].
  destruct (standardize_districts df1) as [df2|] eqn:H2; [|done].
  destruct (convert_dates df2) as [df3|] eqn:H3; [|done].
  destruct (validate_pincodes df3) as [df4|] eqn:H4; [|done].
  destruct (sort_values df4 sort_cols) as [df5|] eqn:H5; [|done].
  destruct (reorder_columns df5) as [out'|] eqn:H6; [|done].
  destruct (run (split_and_save out' output_base EXCEL_MAX_ROWS) d)
    as [[infos|] d1] eqn:Hsplit; [|done].
  destruct (pd.getitem out' "state") as [state2|] eqn:Hs2; [|done].
  injection Hrun as <- <-.
  apply split_and_save_infos in Hsplit
    as (parts & -> & Hne & Hrows & Hpc & Hnames & Hfile & Hfr & Hnd & Htot);
    [|by vm_compute].
  apply getitem_Ok in Hs1 as [_ ->]. apply getitem_Ok in Hs2 as [_ ->].
  pose proof H1 as (_ & _ & Hr1)%standardize_states_Ok.
  pose proof H2 as (_ & Hc2 & Hr2)%standardize_districts_Ok.
  pose proof H3 as (_ & Hc3 & Hr3)%convert_dates_Ok.
  pose proof H4 as (_ & Hc4 & Hr4)%validate_pincodes_Ok.
  pose proof H5 as (Hc5 & Hr5)%sort_values_Ok.
  pose proof H6 as H6'. unfold reorder_columns in H6'.
  apply select_Ok in H6' as (Hc6 & Hr6).
  assert (columns out' = columns out) as Hcols.
  { rewrite Hc, Hc6, Hc5, Hc4, Hc3, Hc2.
    pose proof H1 as (_ & -> & _)%standardize_states_Ok.
    cbn [columns pd.drop_duplicates].
    destruct (decide _); [done|]. by rewrite filter_ne_snoc. }
  assert (rows out' = rows out) as Hrs.
  { rewrite Hr, Hr6, <- Hc6, Hcols, Hr5, Hr4, Hr3, Hr2, Hr1.
    by rewrite <- !list_fmap_compose. }
  assert (len out'
          = Z.of_nat (length (pd.drop_duplicates_rows (rows df)))) as Hlen.
  { unfold len. rewrite Hrs, Hr, length_fmap.
    by rewrite stable_sort_Permutation, length_fmap. }
  exists df, (columns out), parts.
  cbn [dataset original_rows duplicates_removed final_rows files_info
       invalid_states unique_states].
  split_and!; try done.
  - by rewrite <- Hcols.
  - by rewrite Hrows, Hrs.
  - rewrite Hr1, length_filter_fmap. cbn [rows pd.drop_duplicates].
    rewrite length_filter_fmap. do 2 f_equal.
    apply list_filter_iff. intros r. unfold compose, state_row.
    cbv beta zeta. rewrite cell_at_insert, cell_at_insert_ne by done.
    split; [intros [= Hs]; exact Hs|intros Hs; f_equal; exact Hs].
  - by rewrite Hrows.
Qed.

End statistics.
(** ** The written rows *)

Section written_rows.

Implicit Types (df : DataFrame) (r : gmap string cell).



Lemma final_columns_elem df (c : string) :
  c ∈ ["state"; "district"; "date"; "pincode"] → c ∈ columns df →
  c ∈ filter (λ c, c ≠ "state_original") (columns df) ++ ["state_original"].
Proof.
  intros Hc Hin. rewrite elem_of_app. left. apply list_elem_of_filter.
  split; [|done]. intros ->.
  repeat (apply elem_of_cons in Hc as [Hc|Hc]; [done|]).
  by apply elem_of_nil in Hc.
Qed.

Lemma lex_le_reindex (cols by_ : list string) r1 r2 :
  (∀ c, c ∈ by_ → c ∈ cols) →
  lex_le by_ r1 r2 → lex_le by_ (reindex cols r1) (reindex cols r2).
Proof.
  induction by_ as [|c by_ IH]; intros Hin; [done|]. cbn [lex_le].
  rewrite !(cell_at_reindex cols _ c) by (apply Hin; left).
  intros [H1 H2]. split; [done|]. intros Heq. apply IH; [|auto].
  intros c' Hc'. apply Hin. by right.
Qed.

Lemma standardize_state_image (v : cell) :
  standardize_state v = INVALID
  ∨ standardize_state v ∈ map_img (SA:=gset string) STATE_MAPPING.
Proof.
  unfold standardize_state.
  destruct (isna v); [left; reflexivity|]. cbv beta iota zeta.
  destruct (bool_decide _); [left; reflexivity|].
  destruct (STATE_MAPPING !! _) as [official|] eqn:Hk; [|left; reflexivity].
  right. eapply elem_of_map_img_2. exact Hk.
Qed.

Lemma official_names_length :
  length (elements (map_img (SA:=gset string) STATE_MAPPING)) = 36%nat.
Proof. vm_compute. reflexivity. Qed.

Lemma nunique_bound (col : list cell) (allowed : list cell) :
  (∀ v, v ∈ col → v ∈ allowed) →
  nunique col ≤ Z.of_nat (length allowed)
  ∧ nunique col ≤ Z.of_nat (length col)
  ∧ (col ≠ [] → NA ∉ col → 1 ≤ nunique col).
Proof.
  intros Hall. unfold nunique. split_and!.
  - apply inj_le, submseteq_length, NoDup_submseteq.
    + apply NoDup_remove_dups.
    + intros v [_ Hv]%elem_of_remove_dups%list_elem_of_filter. by apply Hall.
  - apply inj_le. etrans; [|apply (length_filter (λ v, isna v = false))].
    apply submseteq_length, NoDup_submseteq; [apply NoDup_remove_dups|].
    intros v. by rewrite elem_of_remove_dups.
  - intros Hne Hna. destruct col as [|v col]; [done|].
    assert (v ∈ remove_dups (filter (λ v, isna v = false) (v :: col))) as Hv.
    { apply elem_of_remove_dups, list_elem_of_filter. split; [|by left].
      destruct v; [|done..]. destruct Hna. by left. }
    destruct (remove_dups _); [by apply elem_of_nil in Hv|]. simpl. lia.
Qed.

(** X5: the statistics that a successful run of [clean_dataset] returns
    agree with each other and with the files written: the name is the
    one given; the original rows are the rows of all input frames; they
    are the duplicates removed plus the final rows; no count is
    negative; the invalid states, counted before the sort, are the rows
    of the written files whose state is INVALID, at most the final
    rows; the final rows are the rows of the written files, and the
    sum of the rows of the parts recorded; the recorded parts are the
    files written, in that order, with their row counts; there are at
    most 37 different states (36 names and INVALID), at most as many
    as rows, and at least one when there is a row. *)
Theorem clean_dataset_counts (input_dir : list DataFrame)
    (output_base dataset_name : string) (d d' : disk) (st : stats) :
  run (clean_dataset input_dir output_base dataset_name) d = (Ok st, d') →
  ∃ parts,
    d' = d ++ parts
    ∧ dataset st = dataset_name
    ∧ original_rows st = foldr (λ df n, len df + n) 0 input_dir
    ∧ original_rows st = duplicates_removed st + final_rows st
    ∧ 0 ≤ duplicates_removed st
    ∧ 0 ≤ invalid_states st ≤ final_rows st
    ∧ invalid_states st = count_state INVALID (rows_on parts)
    ∧ final_rows st = Z.of_nat (length (rows_on parts))
    ∧ total_rows_of (files_info st) = final_rows st
    ∧ fi_file <$> files_info st = file <$> parts
    ∧ fi_rows <$> files_info st = (len ∘ content) <$> parts
    ∧ unique_states st ≤ 37
    ∧ unique_states st ≤ final_rows st
    ∧ (0 < final_rows st → 1 ≤ unique_states st).
Proof.
  intros (df & cols & parts & Hdf & Hin & Hcols & -> & Hne & Hpc & _ & Hnd
          & Hrows & Hfile & Hfr & Htot & Hname & Horig & Hdup & Hfinal
          & Hinv & Huniq)%clean_dataset_stats.
  assert ("state" ∈ cols) as Hstate.
  { rewrite Hcols.
    apply final_columns_elem; [|apply Hin]; repeat constructor. }
  pose proof (length_drop_duplicates_rows (rows df)) as Hle.
  assert (length (rows_on parts)
          = length (pd.drop_duplicates_rows (rows df))) as Hlen.
  { by rewrite Hrows, length_fmap, stable_sort_Permutation, length_fmap. }
  assert (invalid_states st = count_state INVALID (rows_on parts)) as Hcount.
  { rewrite Hinv. unfold count_state. f_equal.
    rewrite Hrows, length_filter_fmap.
    rewrite (length_filter_Permutation _ _ _ (stable_sort_Permutation _ _)).
    rewrite length_filter_fmap. f_equal. apply list_filter_iff.
    intros r. unfold compose.
    rewrite (cell_at_reindex _ _ _ Hstate), cell_at_clean_row_state.
    split; [intros Hs; f_equal; exact Hs|intros [= Hs]; exact Hs]. }
  set (names := Str INVALID
    :: (Str <$> elements (map_img (SA:=gset string) STATE_MAPPING))).
  destruct (nunique_bound
              ((λ r, cell_at r "state") <$> rows_on parts) names)
    as (Hu1 & Hu2 & Hu3).
  { intros v (r & -> & Hr)%list_elem_of_fmap. rewrite Hrows in Hr.
    apply list_elem_of_fmap in Hr as (r1 & -> & Hr1).
    rewrite stable_sort_Permutation in Hr1.
    apply list_elem_of_fmap in Hr1 as (r0 & -> & _).
    rewrite (cell_at_reindex _ _ _ Hstate), cell_at_clean_row_state.
    destruct (standardize_state_image (cell_at r0 "state")) as [->|Hs].
    - by left.
    - right. apply list_elem_of_fmap. eexists. split; [done|].
      by apply elem_of_elements. }
  unfold names in Hu1. cbn [length] in Hu1.
  rewrite length_fmap, official_names_length in Hu1.
  rewrite length_fmap in Hu2.
  exists parts. split_and!; try done.
  - rewrite Horig. by apply length_concat_rows.
  - lia.
  - unfold len in Hdup. lia.
  - rewrite Hcount. unfold count_state. lia.
  - rewrite Hcount, Hfinal, <- Hlen. unfold count_state.
    apply inj_le, length_filter.
  - lia.
  - rewrite Huniq. lia.
  - rewrite Huniq. lia.
  - intros Hpos. rewrite Huniq. apply Hu3.
    + destruct (rows_on parts); [simpl in *; lia|done].
    + intros (r & Hr & Hin')%list_elem_of_fmap. rewrite Hrows in Hin'.
      apply list_elem_of_fmap in Hin' as (r1 & -> & Hr1).
      rewrite stable_sort_Permutation in Hr1.
      apply list_elem_of_fmap in Hr1 as (r0 & -> & _).
      by rewrite (cell_at_reindex _ _ _ Hstate), cell_at_clean_row_state in Hr.
Qed.

Lemma clean_dataset_counts_witness :
  ∃ st parts,
    run (clean_dataset [three_rows] "out/bio" "BIOMETRIC") [] = (Ok st, parts)
    ∧ original_rows st = duplicates_removed st + final_rows st
    ∧ invalid_states st = count_state INVALID (rows_on parts)
    ∧ total_rows_of (files_info st) = final_rows st.
Proof.
  destruct (run (clean_dataset [three_rows] "out/bio" "BIOMETRIC") [])
    as [[st|e] d'] eqn:E.
  - destruct (clean_dataset_counts _ _ _ _ _ _ E)
      as (parts & -> & _ & _ & H1 & _ & _ & H2 & _ & H3 & _).
    exists st, parts. split_and!; [reflexivity|assumption..].
  - vm_compute in E. discriminate E.
Defined.

(** X6: the rows that a successful run of [clean_dataset] writes, read
    file after file, are in ascending order of date, then state, then
    district: the order made by the sort survives the reordering of the
    columns and the cut into parts, inside every file and from one
    file to the next. *)
Theorem clean_dataset_output_sorted (input_dir : list DataFrame)
    (output_base dataset_name : string) (d d' : disk) (st : stats) :
  run (clean_dataset input_dir output_base dataset_name) d = (Ok st, d') →
  ∃ parts,
    d' = d ++ parts
    ∧ StronglySorted (lex_le sort_cols) (rows_on parts)
    ∧ (∀ w, w ∈ parts → StronglySorted (lex_le sort_cols) (rows (content w)))
    ∧ ∀ (i j : nat) wi wj ri rj,
        parts !! i = Some wi → parts !! j = Some wj → (i < j)%nat →
        ri ∈ rows (content wi) → rj ∈ rows (content wj) →
        lex_le sort_cols ri rj.
Proof.
  intros (df & cols & parts & Hdf & Hin & Hcols & -> & _ & _ & _ & _
          & Hrows & _)%clean_dataset_stats.
  assert (StronglySorted (lex_le sort_cols) (rows_on parts)) as Hs.
  { rewrite Hrows. eapply StronglySorted_fmap; [|apply stable_sort_sorted].
    intros r1 r2. apply lex_le_reindex. intros c Hc. rewrite Hcols.
    apply final_columns_elem.
    - unfold sort_cols in Hc.
      repeat (apply elem_of_cons in Hc as [->|Hc]; [repeat constructor|]).
      by apply elem_of_nil in Hc.
    - apply Hin. unfold sort_cols in Hc.
      repeat (apply elem_of_cons in Hc as [->|Hc]; [repeat constructor|]).
      by apply elem_of_nil in Hc. }
  exists parts. split; [done|]. split; [done|].
  clear Hrows. unfold rows_on in Hs.
  induction parts as [|w parts IH]; [split; intros; by
    first [apply elem_of_nil in H|rewrite lookup_nil in H]|].
  rewrite fmap_cons in Hs. cbn [mjoin list_join] in Hs.
  change (list_join ?x) with (mjoin x) in Hs.
  apply StronglySorted_app in Hs as (Hcross & Hw & Hrest).
  destruct (IH Hrest) as [IH1 IH2]. split.
  - intros w' [->|Hw']%elem_of_cons; [done|by apply IH1].
  - intros i j wi wj ri rj Hi Hj Hij Hri Hrj. destruct j as [|j]; [lia|].
    cbn in Hj. destruct i as [|i].
    + injection Hi as <-. apply Hcross; [done|].
      apply list_elem_of_join. exists (rows (content wj)). split; [done|].
      apply list_elem_of_fmap. exists wj. split; [done|].
      by apply (list_elem_of_lookup_2 _ j).
    + cbn in Hi. apply (IH2 i j wi wj); [done..|lia|done|done].
Qed.

Lemma clean_dataset_output_sorted_witness :
  ∃ st parts,
    run (clean_dataset [three_rows] "out/bio" "BIOMETRIC") [] = (Ok st, parts)
    ∧ StronglySorted (lex_le sort_cols) (rows_on parts).
Proof.
  destruct (run (clean_dataset [three_rows] "out/bio" "BIOMETRIC") [])
    as [[st|e] d'] eqn:E.
  - destruct (clean_dataset_output_sorted _ _ _ _ _ _ E)
      as (parts & -> & Hs & _).
    exists st, parts. split; [reflexivity|assumption].
  - vm_compute in E. discriminate E.
Defined.

End written_rows.
(** ** Cleaning what is already clean *)

Section cleaning_again.

Implicit Types (df : DataFrame) (r : gmap string cell) (s : string).


















Lemma standardize_state_names :
  Forall (λ kv, standardize_state (Str kv.2) = kv.2) STATE_MAPPING_items.
Proof.
  apply Forall_forall. intros [k v] H.
  repeat (apply elem_of_cons in H as [H|H];
    [injection H as -> ->; vm_compute; reflexivity|]).
  by apply elem_of_nil in H.
Qed.

Lemma standardize_state_again (v : cell) :
  standardize_state (Str (standardize_state v)) = standardize_state v.
Proof.
  assert (standardize_state (Str INVALID) = INVALID) as Hinv
    by (vm_compute; reflexivity).
  unfold standardize_state at 2 3.
  destruct (isna v); [exact Hinv|]. cbv beta iota zeta.
  destruct (bool_decide _); [exact Hinv|].
  destruct (STATE_MAPPING !! _) as [official|] eqn:Hk; [|exact Hinv].
  apply STATE_MAPPING_lookup in Hk.
  exact (proj1 (Forall_forall _ _) standardize_state_names _ Hk).
Qed.

End cleaning_again.
Section blocks_again.

Import datetime.

Implicit Types (df : DataFrame) (r : gmap string cell) (s : string).




Lemma state_row_again r :
  state_row (state_row r)
  = <["state_original" := cell_at (state_row r) "state"]> (state_row r).
Proof.
  unfold state_row at 1. cbv zeta.
  rewrite (cell_at_insert_ne _ "state_original" "state") by done.
  apply insert_id. rewrite lookup_insert_ne by done.
  unfold state_row. cbv zeta. rewrite cell_at_insert, lookup_insert_eq.
  by rewrite standardize_state_again.
Qed.

(** Up to its dash, a text without a dash is the first piece. *)
Lemma split_first (sep : ascii) s :
  split sep (s +:+ String sep "") = [s; ""] →
  ∀ rest, split sep (s +:+ String sep rest) = s :: split sep rest.
Proof.
  induction s as [|c s IH]; intros Hs rest.
  - rewrite append_nil_l. cbn [split]. by rewrite bool_decide_eq_true_2.
  - rewrite ?append_cons in *. cbn [split] in *.
    case_bool_decide as Hc; [by injection Hs|].
    destruct (split sep (s +:+ String sep "")) as [|p ps] eqn:Hp;
      [by injection Hs|].
    injection Hs as -> ->. by rewrite IH.
Qed.

Lemma split_year (y : Z) (rest : string) :
  1677 ≤ y ≤ 2262 →
  split "-" (pretty y +:+ String "-" rest) = pretty y :: split "-" rest.
Proof.
  intros Hy. apply split_first.
  assert (Forall (λ y, split "-" (pretty y +:+ "-") = [pretty y; ""])
            (seqZ 1677 586)) as Hall.
  { apply (bool_decide_unpack _). vm_compute. exact I. }
  apply (proj1 (Forall_seqZ _ _ _) Hall). lia.
Qed.

(** The text of a parsed day does not parse again: under the format
    day-month-year its first piece, the year, is no day. *)
Lemma to_datetime_again (v : cell) :
  to_datetime (strftime_ymd (to_datetime v)) = None.
Proof.
  destruct (to_datetime v) as [t|] eqn:Ht; [|done].
  unfold to_datetime in Ht. destruct (isna v); [done|].
  apply strptime_dmy_Some in Ht as (_ & _ & _ & _ & _ & _ & _ & _ & _ & Hy).
  cbn [strftime_ymd]. unfold to_datetime. cbn [isna str].
  unfold strptime_dmy. rewrite ?append_cons, ?append_nil_l.
  rewrite (split_year _ _ Hy).
  pose proof (length_pretty_year _ Hy) as Hlen.
  assert (match_d (pretty (year t)) = None) as Hd.
  { by destruct (pretty (year t)) as [|a [|b [|c s]]]. }
  destruct (split "-" _) as [|sm [|sy [|? ?]]]; [done..| |done].
  by rewrite Hd.
Qed.

Lemma date_row_again r : date_row (date_row r) = <["date" := NA]> (date_row r).
Proof.
  unfold date_row. rewrite cell_at_insert, to_datetime_again.
  by rewrite !insert_insert_eq.
Qed.

(** X7: [standardize_state] is idempotent: standardising the result again
    gives the same result.  Each of the official names and INVALID are
    its fixed points (each official name, lower-cased, is one of the
    keys of the table and leads back to that name). *)
Theorem standardize_state_idempotent :
  (∀ v, standardize_state (Str (standardize_state v)) = standardize_state v)
  ∧ (∀ name, name ∈ map_img (SA:=gset string) STATE_MAPPING →
       standardize_state (Str name) = name)
  ∧ standardize_state (Str INVALID) = INVALID.
Proof.
  split_and!.
  - apply standardize_state_again.
  - intros name (k & Hk)%elem_of_map_img.
    apply STATE_MAPPING_lookup in Hk.
    exact (proj1 (Forall_forall _ _) standardize_state_names _ Hk).
  - vm_compute. reflexivity.
Qed.

Lemma standardize_state_idempotent_witness :
  standardize_state (Str (standardize_state (Str " orissa"))) = "Odisha"
  ∧ standardize_state (Str "Odisha") = "Odisha".
Proof.
  destruct standardize_state_idempotent as (Hagain & Hname & _). split.
  - rewrite Hagain. vm_compute. reflexivity.
  - apply Hname. apply (elem_of_map_img_2 _ "orissa"). vm_compute.
    reflexivity.
Defined.



(** X9: the state block applied to a frame that it produced succeeds and
    keeps the columns and the (standardised) state of every row, but
    overwrites [state_original] with the standardised name: the
    spelling of the input is kept only by the first application. *)
Theorem standardize_states_again df df1 :
  standardize_states df = Ok df1 →
  ∃ df2,
    standardize_states df1 = Ok df2
    ∧ columns df2 = columns df1
    ∧ rows df2
      = (λ r, <["state_original" := cell_at r "state"]> r) <$> rows df1
    ∧ (λ r, cell_at r "state") <$> rows df2
      = (λ r, cell_at r "state") <$> rows df1.
Proof.
  intros H. pose proof H as (Hin & Hc & Hr)%standardize_states_Ok.
  assert ("state" ∈ columns df1 ∧ "state_original" ∈ columns df1) as [Hs Ho].
  { rewrite !(columns_standardize_states _ _ _ H). auto. }
  destruct (standardize_states_succeeds df1 Hs) as [df2 H2].
  exists df2. split; [done|].
  apply standardize_states_Ok in H2 as (_ & Hc2 & Hr2).
  rewrite decide_True in Hc2 by done.
  assert (rows df2
    = (λ r, <["state_original" := cell_at r "state"]> r) <$> rows df1) as Hrows.
  { rewrite Hr2, Hr, <- !list_fmap_compose. apply list_fmap_ext.
    intros i r _. apply state_row_again. }
  split_and!; [done..|].
  rewrite Hrows, <- list_fmap_compose. apply list_fmap_ext.
  intros i r _. unfold compose. by rewrite cell_at_insert_ne.
Qed.

Lemma standardize_states_again_witness :
  ∃ df1 df2,
    standardize_states two_spellings = Ok df1
    ∧ standardize_states df1 = Ok df2
    ∧ (λ r, cell_at r "state_original") <$> rows df2
      = (λ r, cell_at r "state") <$> rows df1.
Proof.
  destruct (standardize_states two_spellings) as [df1|e] eqn:E1;
    [|vm_compute in E1; discriminate E1].
  destruct (standardize_states_again _ _ E1) as (df2 & H2 & _ & Hr & _).
  exists df1, df2. split_and!; [reflexivity|assumption|].
  rewrite Hr, <- list_fmap_compose. apply list_fmap_ext.
  intros i r _. unfold compose. by rewrite cell_at_insert.
Defined.

(** X10: the date block is not idempotent: applied to a frame that it
    produced, it succeeds and turns every date into the missing value.
    The year-month-day text it writes does not parse under the
    day-month-year format it reads. *)
Theorem convert_dates_again df df1 :
  convert_dates df = Ok df1 →
  ∃ df2,
    convert_dates df1 = Ok df2
    ∧ columns df2 = columns df1
    ∧ rows df2 = (λ r, <["date" := NA]> r) <$> rows df1.
Proof.
  intros (Hin & Hc & Hr)%convert_dates_Ok.
  rewrite (convert_dates_elem df1) by by rewrite Hc.
  eexists. split; [reflexivity|]. split; [reflexivity|]. cbn [rows].
  rewrite Hr, <- !list_fmap_compose. apply list_fmap_ext.
  intros i r _. apply date_row_again.
Qed.

Lemma convert_dates_again_witness :
  ∃ df1 df2,
    convert_dates mixed_dates = Ok df1
    ∧ convert_dates df1 = Ok df2
    ∧ (λ r, cell_at r "date") <$> rows df2 = [NA; NA; NA; NA].
Proof.
  destruct (convert_dates mixed_dates) as [df1|e] eqn:E1;
    [|vm_compute in E1; discriminate E1].
  destruct (convert_dates_again _ _ E1) as (df2 & H2 & _ & Hr).
  exists df1, df2. split_and!; [reflexivity|assumption|].
  rewrite Hr, <- list_fmap_compose.
  apply convert_dates_Ok in E1 as (_ & _ & ->). reflexivity.
Defined.

End blocks_again.
(** ** The cells of the written rows *)

Section written_cells.

Import datetime.

Implicit Types (df : DataFrame) (r : gmap string cell).




End written_cells.
(** ** The errors of a run, and the loop of [main] *)

Section runs.

Implicit Types (df : DataFrame) (datasets : list dataset_spec).








Lemma process_datasets_cons (ds : dataset_spec) datasets (d : disk) :
  run (process_datasets (ds :: datasets)) d
  = match run (clean_dataset (ds_input_dir ds) (ds_output_base ds)
                 (ds_name ds)) d with
    | (Ok st, d1) =>
        match run (process_datasets datasets) d1 with
        | (Ok sts, d2) => (Ok (st :: sts), d2)
        | (Raise e, d2) => (Raise e, d2)
        end
    | (Raise e, d1) => (Raise e, d1)
    end.
Proof.
  unfold process_datasets. rewrite run_for_cons, run_bind.
  destruct (run (clean_dataset _ _ _) d) as [[st|e] d1]; [|done].
  rewrite run_bind.
  by destruct (run (for_ datasets _) d1) as [[sts|e] d2].
Qed.



Lemma append_assoc (s t u : string) : (s +:+ t) +:+ u = s +:+ t +:+ u.
Proof. induction s as [|c s IH]; [done|]. by rewrite ?append_cons, IH. Qed.

Lemma path_join_relative (a : string) :
  ∃ pre, ∀ (c : ascii) (b : string),
    c ≠ "/"%char → path_join a (String c b) = pre +:+ String c b.
Proof.
  destruct (bool_decide (a = "") || ends_with "/" a) eqn:Ha.
  - exists a. intros c b Hc. unfold path_join. rewrite Ha.
    destruct c as [[] [] [] [] [] [] [] []]; done.
  - exists (a +:+ "/"). intros c b Hc. unfold path_join. rewrite Ha.
    rewrite append_assoc.
    destruct c as [[] [] [] [] [] [] [] []]; done.
Qed.

Lemma part_name_prefix (pre base : string) (n : Z) :
  part_name (pre +:+ base) n = pre +:+ part_name base n.
Proof. unfold part_name. by rewrite append_assoc. Qed.

Lemma part_name_base_ne (c1 c2 : ascii) (b1 b2 : string) (n m : Z) :
  c1 ≠ c2 → part_name (String c1 b1) n ≠ part_name (String c2 b2) m.
Proof.
  intros Hc H. unfold part_name in H. rewrite !append_cons in H.
  injection H as H1 _. exact (Hc H1).
Qed.

(** X14: the files that a successful run of the loop of [main] writes
    for its three datasets have pairwise different names: each dataset
    numbers its own parts, and the three output bases differ, so no
    file of a run is overwritten by a later one of the same run. *)
Theorem main_files_distinct (output_dir : string)
    (biometric demographic enrolment : list DataFrame) (d d' : disk)
    (sts : list stats) :
  run (process_datasets
         (main_datasets output_dir biometric demographic enrolment)) d
  = (Ok sts, d') →
  ∃ parts,
    d' = d ++ parts
    ∧ NoDup (file <$> parts)
    ∧ dataset <$> sts = ["BIOMETRIC"; "DEMOGRAPHIC"; "ENROLMENT"].
Proof.
  unfold main_datasets.
  destruct (path_join_relative output_dir) as [pre Hpre].
  rewrite !Hpre by done.
  rewrite process_datasets_cons. cbn [ds_input_dir ds_output_base ds_name].
  destruct (run (clean_dataset biometric _ _) d) as [[st1|e] d1] eqn:E1;
    [|done].
  rewrite process_datasets_cons. cbn [ds_input_dir ds_output_base ds_name].
  destruct (run (clean_dataset demographic _ _) d1) as [[st2|e] d2] eqn:E2;
    [|done].
  rewrite process_datasets_cons. cbn [ds_input_dir ds_output_base ds_name].
  destruct (run (clean_dataset enrolment _ _) d2) as [[st3|e] d3] eqn:E3;
    [|done].
  change (run (process_datasets []) d3) with (Ok (@nil stats), d3).
  cbv beta iota.
  intros [= <- <-].
  apply clean_dataset_stats in E1
    as (df1 & c1 & p1 & _ & _ & _ & -> & _ & _ & Hf1 & Hn1 & _ & _ & _ & _
        & Hname1 & _).
  apply clean_dataset_stats in E2
    as (df2 & c2 & p2 & _ & _ & _ & -> & _ & _ & Hf2 & Hn2 & _ & _ & _ & _
        & Hname2 & _).
  apply clean_dataset_stats in E3
    as (df3 & c3 & p3 & _ & _ & _ & -> & _ & _ & Hf3 & Hn3 & _ & _ & _ & _
        & Hname3 & _).
  exists (p1 ++ p2 ++ p3). split; [by rewrite <- !app_assoc|].
  split; [|rewrite !fmap_cons, Hname1, Hname2, Hname3; reflexivity].
  rewrite !fmap_app.
  assert (∀ (b1 b2 : string) (l1 l2 : list written) (x : string),
    file <$> l1 = part_name (pre +:+ b1) <$> seqZ 1 (Z.of_nat (length l1)) →
    file <$> l2 = part_name (pre +:+ b2) <$> seqZ 1 (Z.of_nat (length l2)) →
    (∀ n m, part_name b1 n ≠ part_name b2 m) →
    x ∈ file <$> l1 → x ∉ file <$> l2) as Hdisj.
  { intros b1 b2 l1 l2 x -> -> Hne (n & -> & _)%list_elem_of_fmap
      (m & Heq & _)%list_elem_of_fmap.
    rewrite !part_name_prefix in Heq.
    apply (inj (String.app pre)) in Heq. exact (Hne _ _ Heq). }
  apply NoDup_app. split; [exact Hn1|]. split.
  - intros x Hx [Hx2|Hx3]%elem_of_app.
    + revert Hx2. apply (Hdisj _ _ _ _ x Hf1 Hf2); [|exact Hx].
      intros n m. by apply part_name_base_ne.
    + revert Hx3. apply (Hdisj _ _ _ _ x Hf1 Hf3); [|exact Hx].
      intros n m. by apply part_name_base_ne.
  - apply NoDup_app. split; [exact Hn2|]. split; [|exact Hn3].
    intros x Hx. apply (Hdisj _ _ _ _ x Hf2 Hf3); [|exact Hx].
    intros n m. by apply part_name_base_ne.
Qed.

Lemma main_files_distinct_witness :
  ∃ sts parts,
    run (process_datasets (main_datasets "cleaned_data"
           [three_rows] [two_spellings] [mixed_dates])) []
    = (Ok sts, parts)
    ∧ NoDup (file <$> parts).
Proof.
  destruct (run (process_datasets (main_datasets "cleaned_data"
           [three_rows] [two_spellings] [mixed_dates])) [])
    as [[sts|e] d'] eqn:E; [|vm_compute in E; discriminate E].
  destruct (main_files_distinct _ _ _ _ _ _ _ E) as (parts & Hd & Hnd & _).
  exists sts, parts. split; [|exact Hnd]. rewrite Hd. reflexivity.
Defined.

End runs.
(** ** Reading the parts back *)

Section loaders.

Lemma string_le_append (p s t : string) :
  String.le (p +:+ s) (p +:+ t) ↔ String.le s t.
Proof.
  destruct string_le_lex as (_ & _ & Hcons).
  induction p as [|c p IH]; [done|].
  rewrite !append_cons, Hcons, IH. split; [|by right].
  intros [Hlt|[_ Hle]]; [lia|done].
Qed.

Lemma part_name_le (base : string) (n m : Z) :
  String.le (part_name base n) (part_name base m)
  ↔ String.le (pretty n +:+ ".csv") (pretty m +:+ ".csv").
Proof. unfold part_name. by rewrite !string_le_append. Qed.

Lemma StronglySorted_fmap_seqZ {A} (R : relation A) (f : Z → A) (lo n : Z) :
  (∀ i j, lo ≤ i < j → j < lo + n → R (f i) (f j)) →
  StronglySorted R (f <$> seqZ lo n).
Proof.
  remember (Z.to_nat n) as k eqn:Hk. revert lo n Hk.
  induction k as [|k IH]; intros lo n Hk HR.
  - unfold seqZ. rewrite <- Hk. constructor.
  - rewrite seqZ_cons by lia. rewrite fmap_cons. constructor.
    + apply IH; [lia|]. intros i j Hi Hj. apply HR; lia.
    + apply Forall_fmap, Forall_seqZ. intros j Hj. apply HR; lia.
Qed.

Lemma part_name_le_single_digit (base : string) (i j : Z) :
  1 ≤ i ≤ j → j ≤ 9 → String.le (part_name base i) (part_name base j).
Proof.
  intros Hi Hj. apply part_name_le.
  assert (Forall (λ i, Forall (λ j, i ≤ j →
            String.le (pretty i +:+ ".csv") (pretty j +:+ ".csv"))
            (seqZ 1 9)) (seqZ 1 9)) as Hall.
  { apply (bool_decide_unpack _). vm_compute. exact I. }
  apply (proj1 (Forall_seqZ _ _ _)
           (proj1 (Forall_seqZ _ _ _) Hall i ltac:(lia)) j); lia.
Qed.

Lemma part_name_10_before_2 (base : string) :
  String.le (part_name base 10) (part_name base 2)
  ∧ ¬ String.le (part_name base 2) (part_name base 10).
Proof.
  rewrite !part_name_le. split; apply (bool_decide_unpack _); vm_compute;
    exact I.
Qed.

(** X15: the order in which [load_split_csv] (and [load_dataset])
    reads the part files, [sorted(glob.glob(pattern))], is the order of
    the names as texts.  No file gives the failure branch.  For the
    parts 1 to [k] that [split_and_save] writes under one base, with
    [k] at most 9, the sorted names are the names in the order of the
    parts, whatever order [glob] lists them in.  From ten parts on this
    is not so: part 10 is read before part 2. *)
Theorem sorted_files_order (base : string) :
  sorted_files [] = None
  ∧ (∀ globbed, globbed ≠ [] →
       ∃ files, sorted_files globbed = Some files ∧ files ≡ₚ globbed)
  ∧ (∀ k globbed,
       1 ≤ k ≤ 9 → globbed ≡ₚ part_name base <$> seqZ 1 k →
       sorted_files globbed = Some (part_name base <$> seqZ 1 k))
  ∧ (∀ globbed files,
       sorted_files globbed = Some files →
       part_name base 2 ∈ globbed → part_name base 10 ∈ globbed →
       ∃ i j : nat,
         files !! i = Some (part_name base 10)
         ∧ files !! j = Some (part_name base 2) ∧ (i < j)%nat).
Proof.
  assert (∀ globbed files, sorted_files globbed = Some files →
            files = merge_sort String.le globbed) as Hsome.
  { unfold sorted_files. intros globbed files.
    by destruct (merge_sort _ _); intros [= <-]. }
  assert (∀ globbed, globbed ≠ [] →
            sorted_files globbed = Some (merge_sort String.le globbed))
    as Hne.
  { unfold sorted_files. intros globbed Hg.
    destruct (merge_sort _ _) eqn:Hs; [|done]. destruct Hg.
    apply Permutation_nil_r. by rewrite <- Hs, merge_sort_Permutation. }
  split_and!.
  - reflexivity.
  - intros globbed Hg. eexists. split; [by apply Hne|].
    apply merge_sort_Permutation.
  - intros k globbed Hk Hp. rewrite Hne.
    + f_equal. apply (StronglySorted_unique String.le).
      * apply StronglySorted_merge_sort; apply _.
      * apply StronglySorted_fmap_seqZ. intros i j Hi Hj.
        apply part_name_le_single_digit; lia.
      * by rewrite merge_sort_Permutation.
    + intros ->. apply Permutation_nil_l in Hp.
      rewrite seqZ_cons in Hp by lia. done.
  - intros globbed files Hs H2 H10. apply Hsome in Hs as ->.
    pose proof (StronglySorted_merge_sort String.le globbed) as Hsorted.
    rewrite <- (merge_sort_Permutation String.le) in H2, H10.
    apply list_elem_of_lookup in H2 as [j Hj].
    apply list_elem_of_lookup in H10 as [i Hi].
    exists i, j. split; [done|]. split; [done|].
    destruct (part_name_10_before_2 base) as [_ Hnot].
    destruct (decide (i < j)%nat) as [|Hge]; [done|]. destruct Hnot.
    destruct (decide (i = j)) as [->|Hneq].
    + rewrite Hi in Hj. injection Hj as <-. reflexivity.
    + eapply (StronglySorted_lookup_lt String.le);
        [exact Hsorted|exact Hj|exact Hi|lia].
Qed.

Lemma sorted_files_order_witness :
  sorted_files
    [ "out/bio_part3.csv"; "out/bio_part1.csv"; "out/bio_part2.csv" ]
  = Some [ "out/bio_part1.csv"; "out/bio_part2.csv"; "out/bio_part3.csv" ].
Proof.
  destruct (sorted_files_order "out/bio") as (_ & _ & Hsmall & _).
  apply (Hsmall 3); [lia|].
  apply (bool_decide_unpack _). vm_compute. exact I.
Defined.

End loaders.

(** ** The two versions of the script *)

Section versions.

Implicit Types (df : DataFrame) (r : gmap string cell).








End versions.
